(** * sphinx_kroki: the directive parser, the content-addressed render cache
      and the HTML embedder of [sphinx_kroki.py], as a shallow embedding.

    Conventions of the embedding.
    - A Python [str] is a Rocq [string]: the UTF-8 bytes of the text.
      [strip] knows every character that [str.isspace] does, by its bytes,
      and is exact on well-formed UTF-8; [repr] and [lower] are exact on
      ASCII text and carry the bytes above 0x7f through unchanged.
    - [os.path] is [posixpath].
    - A file holds bytes.  Reading it as text decodes them, which raises
      [UnicodeDecodeError] when they are not text in the encoding, and
      turns CR LF and CR into LF.
    - I/O is explicit: the file system, the trace of HTTP POSTs, the
      messages given to the docutils reporter, the log and the
      translator's body are fields of a state that every operation
      threads; what the outside world answers (the rendering service, a full
      disk, the locale) is read from an [Env] record. *)

From Stdlib Require Import ZArith Ascii String List Lia.
From stdpp Require Import base option list strings gmap.

Local Open Scope Z_scope.

(** ** Python built-ins on [str] *)
Module Py.

Fixpoint to_list (s : string) : list ascii :=
  match s with
  | EmptyString => []
  | String c r => c :: to_list r
  end.

Fixpoint of_list (l : list ascii) : string :=
  match l with
  | [] => EmptyString
  | c :: r => String c (of_list r)
  end.

Definition code (c : ascii) : Z := Z.of_N (N_of_ascii c).

(** [str.isspace] on a character of one byte: TAB..CR, FS..US and SPACE. *)
Definition isspace (c : ascii) : bool :=
  let n := code c in
  ((9 <=? n) && (n <=? 13)) || ((28 <=? n) && (n <=? 32)).

(** [str.isspace] on a character of two bytes: U+0085 and U+00A0. *)
Definition isspace2 (c d : ascii) : bool :=
  (code c =? 0xC2) && ((code d =? 0x85) || (code d =? 0xA0)).

(** [str.isspace] on a character of three bytes: U+1680, U+2000..U+200A,
    U+2028, U+2029, U+202F, U+205F and U+3000.  No character of four bytes
    is white space. *)
Definition isspace3 (c d e : ascii) : bool :=
  let a := code c in
  let b := code d in
  let n := code e in
  ((a =? 0xE1) && (b =? 0x9A) && (n =? 0x80))
  || ((a =? 0xE2) && (b =? 0x80)
      && (((0x80 <=? n) && (n <=? 0x8A)) || (n =? 0xA8) || (n =? 0xA9) || (n =? 0xAF)))
  || ((a =? 0xE2) && (b =? 0x81) && (n =? 0x9F))
  || ((a =? 0xE3) && (b =? 0x80) && (n =? 0x80)).

(** [s.lstrip()]: leading white space goes, character by character. *)
Fixpoint lstrip (s : string) : string :=
  match s with
  | EmptyString => EmptyString
  | String c r =>
      if isspace c then lstrip r
      else
        match r with
        | String d r1 =>
            if isspace2 c d then lstrip r1
            else
              match r1 with
              | String e r2 => if isspace3 c d e then lstrip r2 else s
              | EmptyString => s
              end
        | EmptyString => s
        end
  end.

(** [s.rstrip()]: a byte goes when all that is left from it on is white
    space.  In well-formed UTF-8 a run of white space at the end begins
    where a character begins. *)
Fixpoint rstrip (s : string) : string :=
  match s with
  | EmptyString => EmptyString
  | String c r =>
      match lstrip s with
      | EmptyString => EmptyString
      | _ => String c (rstrip r)
      end
  end.

(** [s.strip()] *)
Definition strip (s : string) : string := rstrip (lstrip s).

(** Truth value of a [str]: the empty string is false. *)
Definition truthy (s : string) : bool :=
  match s with EmptyString => false | _ => true end.

(** [sep.join(parts)] *)
Fixpoint join (sep : string) (parts : list string) : string :=
  match parts with
  | [] => EmptyString
  | [p] => p
  | p :: rest => p +:+ sep +:+ join sep rest
  end.

(** [x in t] for a tuple of strings. *)
Definition contains (t : list string) (x : string) : bool :=
  bool_decide (x ∈ t).

Definition startswith (c : ascii) (s : string) : bool :=
  match s with
  | String d _ => bool_decide (d = c)
  | EmptyString => false
  end.

Fixpoint endswith (c : ascii) (s : string) : bool :=
  match s with
  | EmptyString => false
  | String d EmptyString => bool_decide (d = c)
  | String _ r => endswith c r
  end.

Fixpoint has_char (c : ascii) (s : string) : bool :=
  match s with
  | EmptyString => false
  | String d r => bool_decide (d = c) || has_char c r
  end.

Definition dquote : ascii := ascii_of_N 34.
Definition backslash : ascii := ascii_of_N 92.
Definition esc (c : ascii) : string := String backslash (String c EmptyString).

Definition hexdigit (n : Z) : ascii :=
  ascii_of_N (Z.to_N (if n <? 10 then 48 + n else 87 + n)).

(** Two lower-case hexadecimal digits of a byte. *)
Definition hex2 (n : Z) : string :=
  String (hexdigit (n / 16)) (String (hexdigit (n mod 16)) EmptyString).

(** One character of [repr(s)] inside the chosen [quote]. *)
Definition repr_char (quote c : ascii) : string :=
  let n := code c in
  if bool_decide (c = quote) || bool_decide (c = backslash) then esc c
  else if n =? 9 then esc "t"
  else if n =? 10 then esc "n"
  else if n =? 13 then esc "r"
  else if (n <? 32) || (n =? 127) then esc "x" +:+ hex2 n
  else String c EmptyString.

Fixpoint repr_body (quote : ascii) (s : string) : string :=
  match s with
  | EmptyString => EmptyString
  | String c r => repr_char quote c +:+ repr_body quote r
  end.

(** [repr(s)]: single quotes, unless the text has a single quote and no
    double quote. *)
Definition repr (s : string) : string :=
  let quote : ascii :=
    if has_char "'" s && negb (has_char dquote s) then dquote else "'"%char in
  String quote (repr_body quote s +:+ String quote EmptyString).

(** [str(d)] for a dict of strings, in insertion order. *)
Definition str_dict (d : list (string * string)) : string :=
  "{" +:+ join ", " (map (fun kv => repr (fst kv) +:+ ": " +:+ repr (snd kv)) d)
      +:+ "}".

(** [s.encode()]: the bytes of the text. *)
Definition encode (s : string) : list Z := map code (to_list s).

Definition between (lo hi : Z) (c : ascii) : bool :=
  (lo <=? code c) && (code c <=? hi).

(** A continuation byte. *)
Definition cont (c : ascii) : bool := between 0x80 0xBF c.

(** The second byte after a lead byte of a sequence of three or of four:
    no overlong form, no surrogate, nothing above U+10FFFF. *)
Definition second3 (b0 b1 : ascii) : bool :=
  if code b0 =? 0xE0 then between 0xA0 0xBF b1
  else if code b0 =? 0xED then between 0x80 0x9F b1
  else cont b1.

Definition second4 (b0 b1 : ascii) : bool :=
  if code b0 =? 0xF0 then between 0x90 0xBF b1
  else if code b0 =? 0xF4 then between 0x80 0x8F b1
  else cont b1.

(** Well-formed UTF-8, as the strict decoder takes it. *)
Fixpoint valid_utf8 (s : string) : bool :=
  match s with
  | EmptyString => true
  | String b0 r0 =>
      if code b0 <? 0x80 then valid_utf8 r0
      else
        match r0 with
        | EmptyString => false
        | String b1 r1 =>
            if between 0xC2 0xDF b0 then cont b1 && valid_utf8 r1
            else
              match r1 with
              | EmptyString => false
              | String b2 r2 =>
                  if between 0xE0 0xEF b0
                  then second3 b0 b1 && cont b2 && valid_utf8 r2
                  else
                    match r2 with
                    | EmptyString => false
                    | String b3 r3 =>
                        between 0xF0 0xF4 b0 && second4 b0 b1 && cont b2 && cont b3
                        && valid_utf8 r3
                    end
              end
        end
  end.

(** [bytes.decode('utf-8')]: the text, or [None] for [UnicodeDecodeError]. *)
Definition decode_utf8 (bytes : string) : option string :=
  if valid_utf8 bytes then Some bytes else None.

Definition cr : ascii := ascii_of_N 13.
Definition lf : ascii := ascii_of_N 10.

(** What a file opened as text with the default [newline=None] gives for
    the line ends: CR LF and CR become LF. *)
Fixpoint universal_newlines (s : string) : string :=
  match s with
  | EmptyString => EmptyString
  | String c r =>
      if bool_decide (c = cr) then
        match r with
        | String d r1 =>
            if bool_decide (d = lf) then String lf (universal_newlines r1)
            else String lf (universal_newlines r)
        | EmptyString => String lf EmptyString
        end
      else String c (universal_newlines r)
  end.

End Py.

(** ** [hashlib.sha1]
    FIPS 180-4 SHA-1 on a list of bytes; 32-bit words are [Z] with the
    wrap-around written out. *)
Module Sha1.

Definition mask32 (x : Z) : Z := Z.land x 0xFFFFFFFF.
Definition add32 (x y : Z) : Z := mask32 (x + y).
Definition not32 (x : Z) : Z := Z.lxor x 0xFFFFFFFF.
Definition rotl (n x : Z) : Z :=
  mask32 (Z.lor (Z.shiftl x n) (Z.shiftr x (32 - n))).

(** Big-endian bytes of [x], [n] of them. *)
Fixpoint be_bytes (n : nat) (x : Z) : list Z :=
  match n with
  | O => []
  | S n' => Z.land (Z.shiftr x (8 * Z.of_nat n')) 0xFF :: be_bytes n' x
  end.

(** Message padding: 0x80, zeros up to 56 mod 64, the bit length on 64 bits. *)
Definition pad (msg : list Z) : list Z :=
  let len := Z.of_nat (length msg) in
  let zeros := Z.to_nat ((55 - len) mod 64) in
  msg ++ 0x80 :: repeat 0 zeros ++ be_bytes 8 (8 * len).

Fixpoint words_of (fuel : nat) (bs : list Z) : list Z :=
  match fuel, bs with
  | S f, b0 :: b1 :: b2 :: b3 :: rest =>
      Z.lor (Z.shiftl b0 24) (Z.lor (Z.shiftl b1 16) (Z.lor (Z.shiftl b2 8) b3))
        :: words_of f rest
  | _, _ => []
  end.

(** The message schedule, newest word first: W[t] from W[t-3], W[t-8],
    W[t-14] and W[t-16]. *)
Fixpoint extend (n : nat) (rev_w : list Z) : list Z :=
  match n with
  | O => rev_w
  | S n' =>
      let w := rotl 1 (Z.lxor (Z.lxor (nth 2 rev_w 0) (nth 7 rev_w 0))
                              (Z.lxor (nth 13 rev_w 0) (nth 15 rev_w 0))) in
      extend n' (w :: rev_w)
  end.

Definition schedule (block : list Z) : list Z :=
  rev (extend 64 (rev (words_of 16 block))).

Definition hstate : Type := Z * Z * Z * Z * Z.

Definition round (t : Z) (st : hstate) (w : Z) : hstate :=
  let '(a, b, c, d, e) := st in
  let '(f, k) :=
    if t <? 20 then (Z.lor (Z.land b c) (Z.land (not32 b) d), 0x5A827999)
    else if t <? 40 then (Z.lxor (Z.lxor b c) d, 0x6ED9EBA1)
    else if t <? 60 then
      (Z.lor (Z.lor (Z.land b c) (Z.land b d)) (Z.land c d), 0x8F1BBCDC)
    else (Z.lxor (Z.lxor b c) d, 0xCA62C1D6) in
  let temp := add32 (add32 (add32 (add32 (rotl 5 a) f) e) k) w in
  (temp, a, rotl 30 b, c, d).

Fixpoint rounds (t : Z) (ws : list Z) (st : hstate) : hstate :=
  match ws with
  | [] => st
  | w :: rest => rounds (t + 1) rest (round t st w)
  end.

Definition compress (h : hstate) (block : list Z) : hstate :=
  let '(h0, h1, h2, h3, h4) := h in
  let '(a, b, c, d, e) := rounds 0 (schedule block) h in
  (add32 h0 a, add32 h1 b, add32 h2 c, add32 h3 d, add32 h4 e).

Fixpoint blocks (fuel : nat) (h : hstate) (bs : list Z) : hstate :=
  match fuel, bs with
  | S f, _ :: _ => blocks f (compress h (firstn 64 bs)) (skipn 64 bs)
  | _, _ => h
  end.

Definition init : hstate :=
  (0x67452301, 0xEFCDAB89, 0x98BADCFE, 0x10325476, 0xC3D2E1F0).

(** [sha1(msg).digest()] *)
Definition digest (msg : list Z) : list Z :=
  let p := pad msg in
  let '(h0, h1, h2, h3, h4) := blocks (length p) init p in
  be_bytes 4 h0 ++ be_bytes 4 h1 ++ be_bytes 4 h2 ++ be_bytes 4 h3 ++ be_bytes 4 h4.

(** [sha1(msg).hexdigest()] *)
Definition hexdigest (msg : list Z) : string :=
  fold_right (fun b acc => Py.hex2 b +:+ acc) EmptyString (digest msg).

End Sha1.

(** ** [posixpath] *)
Module PosixPath.

Definition sep : ascii := "/"%char.

(** One step of [join(a, *p)]. *)
Definition join2 (path b : string) : string :=
  if Py.startswith sep b then b
  else if negb (Py.truthy path) || Py.endswith sep path then path +:+ b
  else path +:+ "/" +:+ b.

(** [join(a, *p)] for a non-empty [p]. *)
Definition join (a : string) (p : list string) : string := fold_left join2 p a.

(** [p[:p.rfind(sep) + 1]] and [p[p.rfind(sep) + 1:]] *)
Fixpoint split_last_sep (p : string) : string * string :=
  match p with
  | EmptyString => (EmptyString, EmptyString)
  | String c r =>
      let '(head, tail) := split_last_sep r in
      if Py.truthy head then (String c head, tail)
      else if bool_decide (c = sep) then (String c EmptyString, tail)
      else (EmptyString, String c tail)
  end.

Fixpoint rstrip_sep (s : string) : string :=
  match s with
  | EmptyString => EmptyString
  | String c r =>
      match rstrip_sep r with
      | EmptyString => if bool_decide (c = sep) then EmptyString
                       else String c EmptyString
      | r' => String c r'
      end
  end.

(** [dirname(p)]: the head, without trailing separators unless it is
    made of separators only. *)
Definition dirname (p : string) : string :=
  let head := fst (split_last_sep p) in
  match rstrip_sep head with
  | EmptyString => head
  | h => h
  end.

Fixpoint lstrip_dots (s : string) : string :=
  match s with
  | String "." r => lstrip_dots r
  | _ => s
  end.

(** [s[s.rfind('.'):]] when [s] has a dot. *)
Fixpoint from_last_dot (s : string) : option string :=
  match s with
  | EmptyString => None
  | String c r =>
      match from_last_dot r with
      | Some e => Some e
      | None => if bool_decide (c = "."%char) then Some s else None
      end
  end.

(** [splitext(p)[1]]: from the last dot of the last component, leading
    dots of the component not counting. *)
Definition splitext_ext (p : string) : string :=
  default EmptyString (from_last_dot (lstrip_dots (snd (split_last_sep p)))).

End PosixPath.

(** ** Exceptions, state and the monad that threads them *)

(** The exceptions the module raises, catches or lets through.  [IOError]
    is Python 3's alias of [OSError]; [RequestException] stands for
    [requests.exceptions.RequestException] and its subclasses;
    [UnicodeDecodeError] is a [ValueError], which no handler of the module
    catches. *)
Inductive exn : Type :=
| OSError
| RequestException
| KrokiError (msg : string)
| SkipNode
| UnicodeDecodeError.

Inductive result (A : Type) : Type :=
| Ok (a : A)
| Raise (e : exn).
Arguments Ok {A} a.
Arguments Raise {A} e.

(** What the code reads and writes outside its own variables. *)
Record State : Type := mkState {
  files : gmap string string;   (** regular files: path to bytes *)
  dirs : gset string;           (** directories that [os.makedirs] made or found *)
  posts : list (string * list (string * string));
                                (** calls of [requests.post]: URL and JSON payload *)
  dependencies : gset string;   (** [env.dependencies[env.docname]] *)
  reports : list (Z * string * Z);
      (** system messages the docutils reporter was given, which Sphinx
          logs as they come: level, message and line *)
  log : list string;            (** warnings given to the module's [logger] *)
  body : list string;           (** [HTMLTranslator.body] *)
}.

Definition M (A : Type) : Type := State -> result A * State.

Definition ret {A} (a : A) : M A := fun st => (Ok a, st).
Definition raise {A} (e : exn) : M A := fun st => (Raise e, st).
Definition bind {A B} (m : M A) (k : A -> M B) : M B :=
  fun st =>
    match m st with
    | (Ok a, st') => k a st'
    | (Raise e, st') => (Raise e, st')
    end.
(** [try: m except ...: handler] *)
Definition try_except {A} (m : M A) (handler : exn -> M A) : M A :=
  fun st =>
    match m st with
    | (Ok a, st') => (Ok a, st')
    | (Raise e, st') => handler e st'
    end.
Definition get : M State := fun st => (Ok st, st).
Definition modify (f : State -> State) : M unit := fun st => (Ok tt, f st).

Notation "x <- c1 ;; c2" := (bind c1 (fun x => c2))
  (at level 100, c1 at next level, right associativity).
Notation "c1 ;; c2" := (bind c1 (fun _ => c2))
  (at level 100, right associativity).

Definition set_files (f : gmap string string -> gmap string string) (st : State) : State :=
  mkState (f (files st)) (dirs st) (posts st) (dependencies st) (reports st)
          (log st) (body st).
Definition set_dirs (f : gset string -> gset string) (st : State) : State :=
  mkState (files st) (f (dirs st)) (posts st) (dependencies st) (reports st)
          (log st) (body st).
Definition set_posts (f : list (string * list (string * string)) ->
                          list (string * list (string * string))) (st : State) : State :=
  mkState (files st) (dirs st) (f (posts st)) (dependencies st) (reports st)
          (log st) (body st).
Definition set_dependencies (f : gset string -> gset string) (st : State) : State :=
  mkState (files st) (dirs st) (posts st) (f (dependencies st)) (reports st)
          (log st) (body st).
Definition set_reports (f : list (Z * string * Z) -> list (Z * string * Z))
    (st : State) : State :=
  mkState (files st) (dirs st) (posts st) (dependencies st) (f (reports st))
          (log st) (body st).
Definition set_log (f : list string -> list string) (st : State) : State :=
  mkState (files st) (dirs st) (posts st) (dependencies st) (reports st)
          (f (log st)) (body st).
Definition set_body (f : list string -> list string) (st : State) : State :=
  mkState (files st) (dirs st) (posts st) (dependencies st) (reports st)
          (log st) (f (body st)).

Definition is_not_None {A} (o : option A) : bool :=
  match o with Some _ => true | None => false end.

Definition nl : string := String (ascii_of_N 10) EmptyString.
Definition dq : string := String Py.dquote EmptyString.

(** [open(filename, encoding=...)] and [fp.read()], in text mode: a file
    that is not there raises [OSError]; bytes that [decode] does not take
    raise [UnicodeDecodeError]; the text comes with its line ends
    translated. *)
Definition open_read (decode : string -> option string) (filename : string)
    : M string :=
  st <- get ;;
  match files st !! filename with
  | Some bytes =>
      match decode bytes with
      | Some text => ret (Py.universal_newlines text)
      | None => raise UnicodeDecodeError
      end
  | None => raise OSError
  end.

(** ** Module constants *)

Definition formats : list string := ["png"; "svg"; "jpeg"; "base64"; "txt"; "utxt"].

Definition types : list string :=
  ["blockdiag"; "bpmn"; "bytefield"; "seqdiag";
   "actdiag"; "nwdiag"; "packetdiag"; "rackdiag";
   "c4plantuml"; "ditaa"; "erd"; "graphviz"; "mermaid";
   "nomnoml"; "plantuml"; "svgbob"; "vega"; "vegalite";
   "wavedrom"].

Definition extension_type_map : gmap string string :=
  list_to_map
    [(".puml", "plantuml");
     (".dot", "graphviz");
     (".gv", "graphviz");
     (".bpmn", "bpmn");
     (".ditaa", "ditaa");
     (".bob", "svgbob")].

(** ** The directive *)

(** [self.options]: a key of [option_spec] is present or not; the value
    has the type its converter returns. *)
Record Options : Type := mkOptions {
  opt_filename : option string;
  opt_type : option string;
  opt_format : option string;
  opt_align : option string;
  opt_caption : option string;
  opt_class : option (list string);
}.

Record Directive : Type := mkDirective {
  content : list string;
  arguments : list string;
  options : Options;
  lineno : Z;
}.

(** What [self.env] and [self.state] offer to [run]. *)
Record BuildEnvironment : Type := mkBuildEnvironment {
  docname : string;
  search_image_for_language : string -> string;
  relfn2path : string -> string * string;
  caption_messages : string -> Z -> list (Z * string * Z);
      (** the system messages of [self.state.inline_text(caption, lineno)],
          which the reporter is given while the caption is parsed *)
}.

(** The [kroki] node: the attributes [run] sets.  An absent key is [None];
    [classes] is the empty list on a fresh docutils element. *)
Record kroki : Type := mkKroki {
  node_type : string;
  node_format : option string;
  node_code : string;
  node_options : gmap string string;
  node_align : option string;
  node_classes : list string;
}.

Inductive node : Type :=
| system_message (level : Z) (message : string) (line : Z)
| kroki_node (k : kroki)
| figure (align : option string) (child : kroki) (caption : string).

(** The node of a warning: a system message of level 2. *)
Definition warning (message : string) (line : Z) : node :=
  system_message 2 message line.

(** [document.reporter.warning(message, line=...)], with the report level
    and the halt level that Sphinx sets: the reporter is given the message,
    which Sphinx logs at once, and returns its node. *)
Definition reporter_warning (message : string) (line : Z) : M node :=
  modify (set_reports (fun rs => rs ++ [(2, message, line)])) ;;
  ret (warning message line).

(** The figure that [sphinx.ext.graphviz.figure_wrapper] returns: it
    takes the node's [align] away from it and carries the caption. *)
Definition figure_of (k : kroki) (caption : string) : node :=
  figure (node_align k)
         (mkKroki (node_type k) (node_format k) (node_code k) (node_options k)
                  None (node_classes k))
         caption.

(** [figure_wrapper(self, node, caption)]: parsing the caption gives the
    reporter the messages of its inline markup. *)
Definition figure_wrapper (env : BuildEnvironment) (line : Z) (k : kroki)
    (caption : string) : M node :=
  modify (set_reports (fun rs => rs ++ caption_messages env caption line)) ;;
  ret (figure_of k caption).

(** [env.note_dependency] *)
Definition note_dependency (rel_filename : string) : M unit :=
  modify (set_dependencies (fun deps => {[rel_filename]} ∪ deps)).

Definition msg_filename_conflict : string :=
  "Kroki directive cannot have both filename option and a filename argument".
Definition msg_content_conflict : string :=
  "Kroki directive cannot have both content and a filename argument".
Definition msg_read_failed (filename : string) : string :=
  "External kroki file " +:+ Py.repr filename +:+ " not found or reading it failed".
Definition msg_no_content : string :=
  "Ignoring kroki directive without content. It is necessary to specify filename argument/option or content".
Definition msg_type_conflict : string :=
  "Kroki directive cannot have both type option and a type argument".
Definition msg_type_required : string :=
  "Kroki directive has to define diagram type.".
Definition msg_format_conflict : string :=
  "Kroki directive cannot have both format option and a format argument".

(** The body of [for argument in self.arguments]. *)
Definition classify (acc : option string * option string * option string)
    (argument : string) : option string * option string * option string :=
  let '(filename, diagram_type, output_format) := acc in
  if Py.contains types argument then (filename, Some argument, output_format)
  else if Py.contains formats argument then (filename, diagram_type, Some argument)
  else (Some argument, diagram_type, output_format).

(** [return [document.reporter.warning(message, line=self.lineno)]] *)
Definition warn (self : Directive) (message : string) : M (list node) :=
  w <- reporter_warning message (lineno self) ;; ret [w].

(** [Kroki.run] *)
Definition run (env : BuildEnvironment) (self : Directive) : M (list node) :=
  let source := Py.join nl (content self) in
  let '(filename, diagram_type, output_format) :=
    fold_left classify (arguments self) (None, None, None) in
  if is_not_None (opt_filename (options self)) && is_not_None filename then
    warn self msg_filename_conflict
  else
  let filename :=
    match opt_filename (options self) with Some f => Some f | None => filename end in
  if Py.truthy (Py.strip source) && is_not_None filename then
    warn self msg_content_conflict
  else
  loaded <-
    match filename with
    | Some fn =>
        let argument := search_image_for_language env fn in
        let '(rel_filename, filename) := relfn2path env argument in
        note_dependency rel_filename ;;
        try_except
          (source <- open_read Py.decode_utf8 filename ;;
           ret (inr (source, Some filename)))
          (fun e =>
             match e with
             | OSError =>
                 warned <- warn self (msg_read_failed filename) ;; ret (inl warned)
             | _ => raise e
             end)
    | None => ret (inr (source, None))
    end ;;
  match loaded with
  | inl warned => ret warned
  | inr (source, filename) =>
      if negb (Py.truthy (Py.strip source)) then
        warn self msg_no_content
      else if is_not_None (opt_type (options self)) && is_not_None diagram_type then
        warn self msg_type_conflict
      else
      let diagram_type :=
        match opt_type (options self) with Some t => Some t | None => diagram_type end in
      let diagram_type :=
        match diagram_type, filename with
        | None, Some fn => extension_type_map !! PosixPath.splitext_ext fn
        | _, _ => diagram_type
        end in
      match diagram_type with
      | None => warn self msg_type_required
      | Some diagram_type =>
          if is_not_None (opt_format (options self)) && is_not_None output_format then
            warn self msg_format_conflict
          else
          let output_format :=
            match opt_format (options self) with
            | Some f => Some f
            | None => output_format
            end in
          let node :=
            mkKroki diagram_type output_format source
                    {[ "docname" := docname env ]}
                    (opt_align (options self))
                    (default [] (opt_class (options self))) in
          match opt_caption (options self) with
          | None => ret [kroki_node node]
          | Some caption =>
              figure <- figure_wrapper env (lineno self) node caption ;;
              ret [figure]
          end
      end
  end.

(** ** The render client and its cache *)

Record Config : Type := mkConfig {
  kroki_url : string;
  kroki_output_format : string;
  kroki_inline_svg : bool;
}.

Record Builder : Type := mkBuilder {
  config : Config;
  imgpath : string;
  outdir : string;
  imagedir : string;
}.

(** [response.iter_content(...)]: chunks, until the body ends or the
    connection breaks ([RequestException]). *)
Inductive stream : Type :=
| Done
| Chunk (c : string) (rest : stream)
| Broken.

Record Response : Type := mkResponse {
  status_code : Z;
  iter_content : stream;
}.

Inductive PostResult : Type :=
| Failed                      (** [requests.post] raises [RequestException] *)
| Responded (r : Response)
| Refused.
    (** [requests.post] raises a plain [OSError], as it does before it
        connects when the bundle of TLS certificates is not found *)

(** The answers of the outside world. *)
Record Env : Type := mkEnv {
  makedirs_ok : string -> bool;      (** [os.makedirs(dir, exist_ok=True)] succeeds *)
  post_result : string -> list (string * string) -> PostResult;
  open_wb_ok : string -> bool;       (** [open(path, mode='wb')] succeeds *)
  write_ok : string -> string -> bool;
      (** [f.write(chunk)] succeeds, given what the file holds so far *)
  makedirs_made : string -> list string;
      (** the directories [os.makedirs] made before it failed *)
  locale_decode : string -> option string;
      (** decoding in the encoding of the locale, which [open(path, 'r')]
          uses: the text, or [None] for [UnicodeDecodeError] *)
}.

(** The directories above [p], the nearest first. *)
Fixpoint ancestors (fuel : nat) (p : string) : list string :=
  match fuel with
  | O => []
  | S fuel' =>
      let d := PosixPath.dirname p in
      if bool_decide (d = p) || negb (Py.truthy d) then []
      else d :: ancestors fuel' d
  end.

Definition parents (p : string) : list string := ancestors (String.length p) p.

(** [path.isfile] *)
Definition isfile (p : string) : M bool :=
  st <- get ;; ret (is_not_None (files st !! p)).

(** [sphinx.util.osutil.ensuredir], which is [os.makedirs(p, exist_ok=True)]:
    the directory and every directory above it are there afterwards; a
    call that fails may have made some of those above. *)
Definition ensuredir (env : Env) (p : string) : M unit :=
  if makedirs_ok env p then
    modify (set_dirs (fun ds => list_to_set (p :: parents p) ∪ ds))
  else
    modify (set_dirs (fun ds =>
      list_to_set (List.filter (fun d => bool_decide (d ∈ parents p))
                     (makedirs_made env p)) ∪ ds)) ;;
    raise OSError.

(** [requests.post(url, json=payload, stream=True)] *)
Definition requests_post (env : Env) (url : string)
    (payload : list (string * string)) : M Response :=
  modify (set_posts (fun ps => ps ++ [(url, payload)])) ;;
  match post_result env url payload with
  | Failed => raise RequestException
  | Responded r => ret r
  | Refused => raise OSError
  end.

(** [response.raise_for_status()]: [HTTPError] on a 4xx or 5xx status. *)
Definition raise_for_status (r : Response) : M unit :=
  if (400 <=? status_code r) && (status_code r <? 600) then raise RequestException
  else ret tt.

(** [open(outfn, mode='wb')]: creates or truncates the file. *)
Definition open_wb (env : Env) (p : string) : M unit :=
  if open_wb_ok env p then modify (set_files (fun fs => <[p := EmptyString]> fs))
  else raise OSError.

(** [f.write(chunk)] *)
Definition write (env : Env) (p : string) (chunk : string) : M unit :=
  st <- get ;;
  let sofar := default EmptyString (files st !! p) in
  if write_ok env sofar chunk
  then modify (set_files (fun fs => <[p := sofar +:+ chunk]> fs))
  else raise OSError.

(** [for chunk in response.iter_content(chunk_size=128): f.write(chunk)] *)
Fixpoint write_chunks (env : Env) (p : string) (s : stream) : M unit :=
  match s with
  | Done => ret tt
  | Chunk c rest => write env p c ;; write_chunks env p rest
  | Broken => raise RequestException
  end.

Definition msg_no_diagram : string := "kroki did not produce a diagram".
Definition msg_unable_to_write (outfn : string) : string :=
  "Unable to write diagram to file " +:+ Py.repr outfn.

Definition payload_of (diagram_source diagram_type output_format : string)
    : list (string * string) :=
  [("diagram_source", diagram_source);
   ("diagram_type", diagram_type);
   ("output_format", output_format)].

(** [(str(kroki_url) + str(payload)).encode()] *)
Definition hashkey (builder : Builder)
    (diagram_type diagram_source output_format : string) : list Z :=
  Py.encode (kroki_url (config builder)
             +:+ Py.str_dict (payload_of diagram_source diagram_type output_format)).

(** ['%s-%s.%s' % (prefix, sha1(hashkey).hexdigest(), output_format)] *)
Definition fname (builder : Builder)
    (diagram_type diagram_source output_format prefix : string) : string :=
  prefix +:+ "-"
    +:+ Sha1.hexdigest (hashkey builder diagram_type diagram_source output_format)
    +:+ "." +:+ output_format.

Definition relfn (builder : Builder)
    (diagram_type diagram_source output_format prefix : string) : string :=
  PosixPath.join (imgpath builder)
    [fname builder diagram_type diagram_source output_format prefix].

Definition outfn (builder : Builder)
    (diagram_type diagram_source output_format prefix : string) : string :=
  PosixPath.join (outdir builder)
    [imagedir builder; fname builder diagram_type diagram_source output_format prefix].

(** [render_kroki] *)
Definition render_kroki (env : Env) (builder : Builder)
    (diagram_type diagram_source output_format prefix : string)
    : M (string * string) :=
  let kroki_url := kroki_url (config builder) in
  let payload := payload_of diagram_source diagram_type output_format in
  let relfn := relfn builder diagram_type diagram_source output_format prefix in
  let outfn := outfn builder diagram_type diagram_source output_format prefix in
  cached <- isfile outfn ;;
  if cached then ret (relfn, outfn)
  else
    try_except
      (ensuredir env (PosixPath.dirname outfn) ;;
       response <- requests_post env kroki_url payload ;;
       raise_for_status response ;;
       open_wb env outfn ;;
       write_chunks env outfn (iter_content response) ;;
       ret (relfn, outfn))
      (fun e =>
         match e with
         | RequestException => raise (KrokiError msg_no_diagram)
         | OSError => raise (KrokiError (msg_unable_to_write outfn))
         | _ => raise e
         end).

(** ** The HTML embedder *)

(** docutils' [HTMLTranslator.encode]: the [special_characters] table. *)
Fixpoint html_encode (s : string) : string :=
  match s with
  | EmptyString => EmptyString
  | String c r =>
      (if bool_decide (c = "&"%char) then "&amp;"
       else if bool_decide (c = "<"%char) then "&lt;"
       else if bool_decide (c = Py.dquote) then "&quot;"
       else if bool_decide (c = ">"%char) then "&gt;"
       else if bool_decide (c = "@"%char) then "&#64;"
       else String c EmptyString) +:+ html_encode r
  end.

(** [self.body.append(s)] *)
Definition body_append (s : string) : M unit :=
  modify (set_body (fun b => b ++ [s])).

(** [str(exc)] *)
Definition str_exn (e : exn) : string :=
  match e with
  | KrokiError msg => msg
  | OSError => "OSError"
  | RequestException => "RequestException"
  | SkipNode => "SkipNode"
  | UnicodeDecodeError => "UnicodeDecodeError"
  end.

(** [logger.warning('kroki %s diagram (%s) with code %r: %s', ...)] *)
Definition logger_warning (diagram_type output_format diagram_source : string)
    (exc : exn) : M unit :=
  modify (set_log (fun l => l ++
    ["kroki " +:+ diagram_type +:+ " diagram (" +:+ output_format
      +:+ ") with code " +:+ Py.repr diagram_source +:+ ": " +:+ str_exn exc])).

(** [' '.join(filter(None, classes))] with
    [classes = [kroki_class, 'kroki', 'kroki-'+diagram_type] + node.get('classes', [])] *)
Definition class_attr (kroki_class : option string) (diagram_type : string)
    (k : kroki) : string :=
  Py.join " "
    (filter (fun c => Py.truthy c = true)
       (default EmptyString kroki_class
          :: "kroki" :: ("kroki-" +:+ diagram_type) :: node_classes k)).

(** The link-wrapped image reference. *)
Definition img_link (fname alt : string) : string :=
  "<a href=" +:+ dq +:+ fname +:+ dq +:+ "><img src=" +:+ dq +:+ fname +:+ dq
    +:+ " alt=" +:+ dq +:+ alt +:+ dq +:+ " /></a>".

(** [render_html].  [render_kroki] returns strings, so the branch on
    [fname is None] cannot be taken and is left out. *)
Definition render_html (env : Env) (builder : Builder) (node : kroki)
    (diagram_type diagram_source : string) (options : gmap string string)
    (prefix : string) (kroki_class : option string) : M unit :=
  let output_format := default (kroki_output_format (config builder)) (node_format node) in
  rendered <-
    try_except
      (render_kroki env builder diagram_type diagram_source output_format prefix)
      (fun exc =>
         match exc with
         | KrokiError _ =>
             logger_warning diagram_type output_format diagram_source exc ;;
             raise SkipNode
         | _ => raise exc
         end) ;;
  let '(fname, outfn) := rendered in
  body_append ("<div class=" +:+ dq +:+ class_attr kroki_class diagram_type node
               +:+ dq +:+ ">") ;;
  match node_align node with
  | Some align =>
      body_append ("<div align=" +:+ dq +:+ align +:+ dq +:+ " class=" +:+ dq
                   +:+ "align-" +:+ align +:+ dq +:+ ">")
  | None => ret tt
  end ;;
  (if bool_decide (output_format = "svg") && kroki_inline_svg (config builder) then
     text <- open_read (locale_decode env) outfn ;; body_append text
   else
     body_append
       (img_link fname
          (Py.strip (html_encode (default diagram_source (options !! "caption")))))) ;;
  match node_align node with
  | Some _ => body_append ("</div>" +:+ nl)
  | None => ret tt
  end ;;
  body_append ("</div>" +:+ nl) ;;
  raise SkipNode.

(** [html_visit_kroki] *)
Definition html_visit_kroki (env : Env) (builder : Builder) (node : kroki) : M unit :=
  render_html env builder node (node_type node) (node_code node)
    (node_options node) "kroki" None.

(** The writer's walk over what [run] returned, as far as [kroki] nodes
    go: docutils' [walkabout] calls the visitor and takes [SkipNode] as
    the instruction not to descend; any other exception leaves the build. *)
Definition visit (env : Env) (builder : Builder) (n : node) : M unit :=
  match n with
  | system_message _ _ _ => ret tt
  | kroki_node k | figure _ k _ =>
      try_except (html_visit_kroki env builder k)
        (fun e => match e with SkipNode => ret tt | _ => raise e end)
  end.

Fixpoint walkabout (env : Env) (builder : Builder) (ns : list node) : M unit :=
  match ns with
  | [] => ret tt
  | n :: rest => visit env builder n ;; walkabout env builder rest
  end.

(** A directive processed end to end: parsed by [run], its nodes written
    by the HTML translator. *)
Definition process (benv : BuildEnvironment) (env : Env) (builder : Builder)
    (self : Directive) : M unit :=
  ns <- run benv self ;; walkabout env builder ns.

(** ** Vocabulary of the statements *)

(** How streaming a response body into a file ends, read off the answers
    of the outside world alone: every chunk written, the connection broken
    before a write failed, or a write failed first. *)
Inductive delivery : Type := Delivered | ConnectionBroke | WriteFailed.

Fixpoint delivery_of (env : Env) (s : stream) (sofar : string) : delivery :=
  match s with
  | Done => Delivered
  | Broken => ConnectionBroke
  | Chunk c rest =>
      if write_ok env sofar c then delivery_of env rest (sofar +:+ c)
      else WriteFailed
  end.

(** The status codes [raise_for_status] rejects. *)
Definition error_status (code : Z) : bool := (400 <=? code) && (code <? 600).

(** A status outside 200..299. *)
Definition non_2xx (code : Z) : bool := negb ((200 <=? code) && (code <? 300)).

Section RenderRequest.

Variable env : Env.
Variable builder : Builder.
Variables diagram_type diagram_source output_format prefix : string.

Let url := kroki_url (config builder).
Let payload := payload_of diagram_source diagram_type output_format.
Let out := outfn builder diagram_type diagram_source output_format prefix.

(** The HTTP request fails: no response, or the body breaks off. *)
Definition request_fails : Prop :=
  match post_result env url payload with
  | Failed | Refused => True
  | Responded r => delivery_of env (iter_content r) EmptyString = ConnectionBroke
  end.

(** The service answers with a status that [raise_for_status] rejects. *)
Definition status_rejected : Prop :=
  match post_result env url payload with
  | Failed | Refused => False
  | Responded r => error_status (status_code r) = true
  end.

(** The service answers with a status outside 200..299. *)
Definition status_non_2xx : Prop :=
  match post_result env url payload with
  | Failed | Refused => False
  | Responded r => non_2xx (status_code r) = true
  end.

(** Writing the artifact fails: its directory cannot be made, the file
    cannot be opened, or a chunk cannot be written. *)
Definition write_fails : Prop :=
  makedirs_ok env (PosixPath.dirname out) = false
  \/ open_wb_ok env out = false
  \/ match post_result env url payload with
     | Failed | Refused => False
     | Responded r => delivery_of env (iter_content r) EmptyString = WriteFailed
     end.

(** The artifact of this request is in the cache. *)
Definition cached (st : State) : Prop := is_Some (files st !! out).

End RenderRequest.

(** The parser's rules, in the order the specification lists them. *)
Inductive rule : Type :=
| FilenameAmbiguity
| ContentAmbiguity
| FileReadFailure
| MissingContent
| TypeAmbiguity
| UnresolvedType
| FormatAmbiguity.

Definition rules : list rule :=
  [FilenameAmbiguity; ContentAmbiguity; FileReadFailure; MissingContent;
   TypeAmbiguity; UnresolvedType; FormatAmbiguity].

(** The place of a rule in that order. *)
Definition rule_index (r : rule) : nat :=
  match r with
  | FilenameAmbiguity => 1
  | ContentAmbiguity => 2
  | FileReadFailure => 3
  | MissingContent => 4
  | TypeAmbiguity => 5
  | UnresolvedType => 6
  | FormatAmbiguity => 7
  end.

Section ParserRules.

Variable benv : BuildEnvironment.
Variable self : Directive.
Variable st : State.

(** A positional argument that is neither a type nor a format. *)
Definition filename_like (a : string) : bool :=
  negb (Py.contains types a) && negb (Py.contains formats a).
Definition type_like (a : string) : bool := Py.contains types a.
Definition format_like (a : string) : bool :=
  negb (Py.contains types a) && Py.contains formats a.

(** The last positional argument of a kind, if any. *)
Definition last_arg (kind : string -> bool) : option string :=
  last (List.filter kind (arguments self)).

(** The filename the directive names: the option, else the argument. *)
Definition resolved_filename : option string :=
  match opt_filename (options self) with
  | Some f => Some f
  | None => last_arg filename_like
  end.

(** The path the build environment turns that filename into. *)
Definition resolved_path : option string :=
  (fun f => snd (relfn2path benv (search_image_for_language benv f)))
    <$> resolved_filename.

Definition block_content : string := Py.join nl (content self).

(** The bytes of the file the directive names, when it is there. *)
Definition file_bytes : option string :=
  match resolved_path with
  | Some p => files st !! p
  | None => None
  end.

(** The file is there and is not UTF-8 text. *)
Definition undecodable : bool :=
  match file_bytes with
  | Some bytes => negb (is_not_None (Py.decode_utf8 bytes))
  | None => false
  end.

(** The diagram text: the file's, decoded, when a filename is named, else
    the block's. *)
Definition diagram_text : option string :=
  match resolved_path with
  | Some p =>
      match files st !! p with
      | Some bytes => Py.universal_newlines <$> Py.decode_utf8 bytes
      | None => None
      end
  | None => Some block_content
  end.

(** The type the directive names: the option, else the argument, else
    what the path's extension maps to. *)
Definition resolved_type : option string :=
  match opt_type (options self), last_arg type_like, resolved_path with
  | Some t, _, _ => Some t
  | None, Some t, _ => Some t
  | None, None, Some p => extension_type_map !! PosixPath.splitext_ext p
  | None, None, None => None
  end.

Definition resolved_format : option string :=
  match opt_format (options self) with
  | Some f => Some f
  | None => last_arg format_like
  end.

(** Each rule's violation, stated on the input by itself.  The read of
    the file fails when the file is not there and when it is not UTF-8
    text; a file that gives no text gives no content either. *)
Definition violates (r : rule) : bool :=
  match r with
  | FilenameAmbiguity =>
      is_not_None (opt_filename (options self)) && is_not_None (last_arg filename_like)
  | ContentAmbiguity =>
      Py.truthy (Py.strip block_content) && is_not_None resolved_filename
  | FileReadFailure =>
      is_not_None resolved_path && negb (is_not_None diagram_text)
  | MissingContent =>
      negb (Py.truthy (Py.strip (default EmptyString diagram_text)))
  | TypeAmbiguity =>
      is_not_None (opt_type (options self)) && is_not_None (last_arg type_like)
  | UnresolvedType => negb (is_not_None resolved_type)
  | FormatAmbiguity =>
      is_not_None (opt_format (options self)) && is_not_None (last_arg format_like)
  end.

Definition diagnostic (r : rule) : string :=
  match r with
  | FilenameAmbiguity => msg_filename_conflict
  | ContentAmbiguity => msg_content_conflict
  | FileReadFailure => msg_read_failed (default EmptyString resolved_path)
  | MissingContent => msg_no_content
  | TypeAmbiguity => msg_type_conflict
  | UnresolvedType => msg_type_required
  | FormatAmbiguity => msg_format_conflict
  end.

(** The earliest listed rule the input violates. *)
Definition first_violation : option rule := List.find violates rules.

(** The node a well-formed directive stands for. *)
Definition parsed_node : kroki :=
  mkKroki (default EmptyString resolved_type) resolved_format
          (default EmptyString diagram_text)
          {[ "docname" := docname benv ]}
          (opt_align (options self))
          (default [] (opt_class (options self))).

(** What [run] returns for a directive that violates no rule. *)
Definition parsed : node :=
  match opt_caption (options self) with
  | None => kroki_node parsed_node
  | Some caption => figure_of parsed_node caption
  end.

(** What [run] returns, when it returns. *)
Definition expected : list node :=
  match first_violation with
  | Some r => [warning (diagnostic r) (lineno self)]
  | None => [parsed]
  end.

(** [run] gets as far as reading the file, and the file is not UTF-8
    text: the read fails, and it fails with [UnicodeDecodeError], which
    the handler around it does not catch. *)
Definition decode_error : bool :=
  negb (violates FilenameAmbiguity) && negb (violates ContentAmbiguity)
  && undecodable.

(** What the reporter is given while [run] runs. *)
Definition reported : list (Z * string * Z) :=
  if decode_error then []
  else
    match first_violation with
    | Some r => [(2, diagnostic r, lineno self)]
    | None =>
        match opt_caption (options self) with
        | Some caption => caption_messages benv caption (lineno self)
        | None => []
        end
    end.

End ParserRules.

(** The [kroki] node inside what [run] returned, if it is one. *)
Definition kroki_of (n : node) : option kroki :=
  match n with
  | kroki_node k | figure _ k _ => Some k
  | system_message _ _ _ => None
  end.

Definition is_warning (n : node) : bool :=
  match n with system_message 2 _ _ => true | _ => false end.

(** A directory name that [join] extends with a separator, and a name
    that [join] does not take for an absolute path. *)
Definition plain_dir (d : string) : bool :=
  Py.truthy d && negb (Py.endswith PosixPath.sep d).
Definition relative (p : string) : bool := negb (Py.startswith PosixPath.sep p).

(** ** Concrete inputs *)
Module Example.

Definition st0 : State := mkState ∅ ∅ [] ∅ [] [] [].

(** The two paths of the artifact of the diagram [A->B: hi]. *)
Definition paths : string * string :=
  ("_images/kroki-d903706aba5a4757c4c78dedaa2bf0ce38c78b59.svg",
   "/out/_images/kroki-d903706aba5a4757c4c78dedaa2bf0ce38c78b59.svg").

Definition conf : Config := mkConfig "https://kroki.io" "svg" false.
Definition builder : Builder := mkBuilder conf "_images" "/out" "_images".

Definition benv : BuildEnvironment :=
  mkBuildEnvironment "index" (fun f => f) (fun f => (f, "/src/" +:+ f))
    (fun _ _ => []).

(** A service that answers every POST with the given status and a
    one-chunk body, on a disk that takes every write. *)
Definition service (code : Z) : Env :=
  mkEnv (fun _ => true)
        (fun _ _ => Responded (mkResponse code (Chunk "<svg/>" Done)))
        (fun _ => true)
        (fun _ _ => true)
        (fun _ => [])
        Py.decode_utf8.

(** The state after a first, successful render of [A->B: hi]. *)
Definition st1 : State :=
  snd (render_kroki (service 200) builder "mermaid" "A->B: hi" "svg" "kroki" st0).

(** No network. *)
Definition offline : Env :=
  mkEnv (fun _ => true) (fun _ _ => Failed) (fun _ => true) (fun _ _ => true)
        (fun _ => []) Py.decode_utf8.

Definition no_options : Options := mkOptions None None None None None None.

(** A type and a format given twice, with block content. *)
Definition twice : Directive :=
  mkDirective ["A->B: hi"] ["mermaid"; "svg"]
    (mkOptions None (Some "plantuml") (Some "png") None None None) 7.

(** A filename given as option and as argument. *)
Definition two_files : Directive :=
  mkDirective [] ["a.puml"]
    (mkOptions (Some "b.puml") None None None None None) 7.

(** A diagram kept in a file, named by a positional argument. *)
Definition from_file : Directive := mkDirective [] ["diagram.puml"] no_options 7.
Definition st_file : State :=
  mkState {[ "/src/diagram.puml" := "Alice -> Bob" ]} ∅ [] ∅ [] [] [].

(** A file that is not UTF-8 text (one byte, 0xFF), named by a directive
    that gives its type twice. *)
Definition st_bad_file : State :=
  mkState {[ "/src/bad.puml" := String (ascii_of_N 255) EmptyString ]} ∅ [] ∅ [] [] [].
Definition twice_on_file : Directive :=
  mkDirective [] ["bad.puml"; "mermaid"]
    (mkOptions None (Some "plantuml") None None None None) 7.

(** The specification's own example, without and with a caption. *)
Definition plain : Directive :=
  mkDirective ["A->B: hi"] ["mermaid"] no_options 7.
Definition captioned : Directive :=
  mkDirective ["A->B: hi"] ["mermaid"]
    (mkOptions None None None None (Some "Greeting") None) 7.

(** Two diagram types among the arguments. *)
Definition two_types : Directive :=
  mkDirective ["A->B: hi"] ["mermaid"; "plantuml"; "png"] no_options 7.

(** Another builder for the same service. *)
Definition builder2 : Builder := mkBuilder conf "img" "/elsewhere" "pictures".

(** A type and a format given as options only. *)
Definition by_options : Directive :=
  mkDirective ["A->B: hi"] []
    (mkOptions None (Some "plantuml") (Some "png") None None None) 7.

(** A service whose answer breaks off after the first chunk. *)
Definition breaking : Env :=
  mkEnv (fun _ => true)
        (fun _ _ => Responded (mkResponse 200 (Chunk "<svg" Broken)))
        (fun _ => true)
        (fun _ _ => true)
        (fun _ => [])
        Py.decode_utf8.

(** A disk on which the image directory cannot be made. *)
Definition read_only : Env :=
  mkEnv (fun _ => false)
        (fun _ _ => Responded (mkResponse 200 (Chunk "<svg/>" Done)))
        (fun _ => true)
        (fun _ _ => true)
        (fun _ => [])
        Py.decode_utf8.

(** A machine without the bundle of TLS certificates: the POST raises
    [OSError] before it connects; the disk takes every write. *)
Definition no_certificates : Env :=
  mkEnv (fun _ => true) (fun _ _ => Refused) (fun _ => true) (fun _ _ => true)
        (fun _ => []) Py.decode_utf8.



End Example.

(** ** The option converters *)

(** docutils' [directives.choice], on ASCII text: the argument, lowered
    and stripped, when it is one of the values, else [ValueError] ([None]);
    an option given without a value has no argument. *)
Module Docutils.

Definition lower_char (c : ascii) : ascii :=
  let n := Py.code c in
  if (65 <=? n) && (n <=? 90) then ascii_of_N (Z.to_N (n + 32)) else c.

(** [s.lower()] *)
Fixpoint lower (s : string) : string :=
  match s with
  | EmptyString => EmptyString
  | String c r => String (lower_char c) (lower r)
  end.

Definition choice (argument : option string) (values : list string) : option string :=
  match argument with
  | None => None
  | Some a =>
      let value := Py.strip (lower a) in
      if Py.contains values value then Some value else None
  end.

End Docutils.

(** [type_spec] *)
Definition type_spec (argument : option string) : option string :=
  Docutils.choice argument types.

(** [format_spec] *)
Definition format_spec (argument : option string) : option string :=
  Docutils.choice argument formats.

(** Options as [option_spec] lets them through: a [type] and a [format]
    are values their converters returned. *)
Definition converted (o : Options) : Prop :=
  (forall t, opt_type o = Some t -> exists a, type_spec a = Some t)
  /\ (forall f, opt_format o = Some f -> exists a, format_spec a = Some f).

(** The state after [run] has noted one dependency. *)
Definition noted (rel_filename : string) (st : State) : State :=
  set_dependencies (fun deps => {[rel_filename]} ∪ deps) st.

(** The three kinds of positional argument that the loop of [run] tells
    apart. *)
Inductive kind : Type := TypeArgument | FormatArgument | FilenameArgument.

Definition kind_of (argument : string) : kind :=
  if Py.contains types argument then TypeArgument
  else if Py.contains formats argument then FormatArgument
  else FilenameArgument.

(** ** Vocabulary for the artifact *)

(** The chunks of a response body, put together. *)
Fixpoint stream_text (s : stream) : string :=
  match s with
  | Chunk c rest => c +:+ stream_text rest
  | Done | Broken => EmptyString
  end.

(** What streaming leaves in a file that held [sofar]: the chunks that
    were written before the body ended, the connection broke or a write
    failed. *)
Fixpoint written (env : Env) (s : stream) (sofar : string) : string :=
  match s with
  | Chunk c rest =>
      if write_ok env sofar c then written env rest (sofar +:+ c) else sofar
  | Done | Broken => sofar
  end.

(** The state after [ensuredir] and the POST of a cache miss. *)
Definition requested (dir url : string) (payload : list (string * string))
    (st : State) : State :=
  set_posts (fun ps => ps ++ [(url, payload)])
    (set_dirs (fun ds => list_to_set (dir :: parents dir) ∪ ds) st).

(** The request a node stands for when the HTML writer visits it: the
    format it asks for, the POST it sends and the artifact it names. *)
Definition request_format (builder : Builder) (k : kroki) : string :=
  default (kroki_output_format (config builder)) (node_format k).

Definition request_of (builder : Builder) (k : kroki)
    : string * list (string * string) :=
  (kroki_url (config builder),
   payload_of (node_code k) (node_type k) (request_format builder k)).

Definition artifact_of (builder : Builder) (k : kroki) : string :=
  outfn builder (node_type k) (node_code k) (request_format builder k) "kroki".

(** A lower-case hexadecimal digit. *)
Definition is_hex (c : ascii) : bool :=
  let n := Py.code c in
  ((48 <=? n) && (n <=? 57)) || ((97 <=? n) && (n <=? 102)).

Fixpoint all_chars (p : ascii -> bool) (s : string) : bool :=
  match s with
  | EmptyString => true
  | String c r => p c && all_chars p r
  end.

(** * Properties *)

(** ** The built-ins on known values *)

Example sha1_abc :
  Sha1.hexdigest (Py.encode "abc") = "a9993e364706816aba3e25717850c26c9cd0d89d".
Proof. vm_compute. reflexivity. Qed.

Example sha1_empty :
  Sha1.hexdigest (Py.encode EmptyString) = "da39a3ee5e6b4b0d3255bfef95601890afd80709".
Proof. vm_compute. reflexivity. Qed.

Example str_of_payload :
  Py.str_dict (payload_of "A->B: hi" "mermaid" "svg") =
    "{'diagram_source': 'A->B: hi', 'diagram_type': 'mermaid', 'output_format': 'svg'}".
Proof. vm_compute. reflexivity. Qed.

Example fname_of_example :
  fname Example.builder "mermaid" "A->B: hi" "svg" "kroki" =
    "kroki-d903706aba5a4757c4c78dedaa2bf0ce38c78b59.svg".
Proof. vm_compute. reflexivity. Qed.

Example splitext_examples :
  PosixPath.splitext_ext "/src/diagram.puml" = ".puml"
  /\ PosixPath.splitext_ext "/src.d/diagram" = EmptyString
  /\ PosixPath.splitext_ext "/src/.puml" = EmptyString.
Proof. vm_compute. done. Qed.

(** ** Streaming and the file system *)

Ltac unfold_monad :=
  unfold bind, ret, raise, get, modify, try_except in *.

Lemma write_chunks_result env p s st :
  fst (write_chunks env p s st) =
    match delivery_of env s (default EmptyString (files st !! p)) with
    | Delivered => Ok tt
    | ConnectionBroke => Raise RequestException
    | WriteFailed => Raise OSError
    end.
Proof.
  revert st. induction s as [|c rest IH|]; intros st; simpl; [done| |done].
  unfold write. unfold_monad.
  destruct (write_ok env _ c) eqn:Hw; simpl; [|done].
  rewrite IH. simpl. by rewrite lookup_insert_eq.
Qed.

(** Streaming touches nothing but the file it writes, and never removes it. *)
Lemma write_chunks_frame env p s st :
  let st' := snd (write_chunks env p s st) in
  posts st' = posts st /\ dirs st' = dirs st /\ log st' = log st
  /\ body st' = body st /\ dependencies st' = dependencies st
  /\ reports st' = reports st
  /\ (forall q, q <> p -> files st' !! q = files st !! q)
  /\ (is_Some (files st !! p) -> is_Some (files st' !! p)).
Proof.
  revert st. induction s as [|c rest IH|]; intros st; simpl; [done| |done].
  unfold write. unfold_monad.
  destruct (write_ok env _ c) eqn:Hw; simpl; [|done].
  destruct (IH (set_files (fun fs => <[p:=default EmptyString (files st !! p) +:+ c]> fs) st))
    as (Hp & Hd & Hl & Hb & Hdep & Hrep & Hq & Hs).
  simpl in *. repeat split; try done.
  - intros q Hne. rewrite Hq by done. by rewrite lookup_insert_ne.
  - intros _. apply Hs. rewrite lookup_insert_eq. by eexists.
Qed.

Section RenderKroki.

Variable env : Env.
Variable builder : Builder.
Variables diagram_type diagram_source output_format prefix : string.

Let url := kroki_url (config builder).
Let payload := payload_of diagram_source diagram_type output_format.
Let rel := relfn builder diagram_type diagram_source output_format prefix.
Let out := outfn builder diagram_type diagram_source output_format prefix.
Let call := render_kroki env builder diagram_type diagram_source output_format prefix.

(** A cache hit answers at once and leaves the state as it is. *)
Lemma render_kroki_hit st :
  is_Some (files st !! out) -> call st = (Ok (rel, out), st).
Proof.
  intros [text Hf]. unfold call, render_kroki, isfile. unfold_monad.
  fold out. by rewrite Hf.
Qed.

(** What a cache miss returns, from the answers of the outside world. *)
Lemma render_kroki_miss st :
  files st !! out = None ->
  fst (call st) =
    if negb (makedirs_ok env (PosixPath.dirname out)) then
      Raise (KrokiError (msg_unable_to_write out))
    else
      match post_result env url payload with
      | Failed => Raise (KrokiError msg_no_diagram)
      | Refused => Raise (KrokiError (msg_unable_to_write out))
      | Responded r =>
          if error_status (status_code r) then Raise (KrokiError msg_no_diagram)
          else if negb (open_wb_ok env out) then
            Raise (KrokiError (msg_unable_to_write out))
          else
            match delivery_of env (iter_content r) EmptyString with
            | Delivered => Ok (rel, out)
            | ConnectionBroke => Raise (KrokiError msg_no_diagram)
            | WriteFailed => Raise (KrokiError (msg_unable_to_write out))
            end
      end.
Proof.
  intros Hf. unfold call, render_kroki, isfile. unfold_monad.
  fold out url payload rel. rewrite Hf. simpl.
  unfold ensuredir. destruct (makedirs_ok env _); simpl; [|done].
  unfold requests_post. unfold_monad. simpl.
  destruct (post_result env url payload) as [|r|]; simpl; [done| |done].
  unfold raise_for_status, error_status.
  destruct ((400 <=? status_code r) && (status_code r <? 600)); simpl; [done|].
  unfold open_wb. destruct (open_wb_ok env out); simpl; [|done].
  match goal with |- context [write_chunks env out ?s ?st0] =>
    pose proof (write_chunks_result env out s st0) as Hr;
    destruct (write_chunks env out s st0) as [res st1] end.
  simpl in Hr. rewrite lookup_insert_eq in Hr. simpl in Hr. subst res.
  by destruct (delivery_of env (iter_content r) EmptyString).
Qed.

(** The file system after a cache miss: other files are as before, and
    the artifact exists exactly when the file was opened. *)
Lemma render_kroki_miss_state st :
  files st !! out = None ->
  let st' := snd (call st) in
  (forall q, q <> out -> files st' !! q = files st !! q)
  /\ log st' = log st /\ body st' = body st
  /\ (posts st' = posts st \/ posts st' = posts st ++ [(url, payload)])
  /\ (is_Some (files st' !! out) <->
        makedirs_ok env (PosixPath.dirname out) = true
        /\ (exists r, post_result env url payload = Responded r
                      /\ error_status (status_code r) = false)
        /\ open_wb_ok env out = true).
Proof.
  intros Hf. unfold call, render_kroki, isfile. unfold_monad.
  fold out url payload rel. rewrite Hf. simpl.
  assert (~ is_Some (files st !! out)) as Hno by (rewrite Hf; by intros [? ?]).
  unfold ensuredir. destruct (makedirs_ok env _); simpl.
  2:{ repeat split; auto; try tauto. by intros (? & _). }
  unfold requests_post. unfold_monad. simpl.
  destruct (post_result env url payload) as [|r|]; simpl.
  { repeat split; auto; try tauto. by intros (_ & (r & ? & _) & _). }
  2:{ repeat split; auto; try tauto. by intros (_ & (r & ? & _) & _). }
  unfold raise_for_status, error_status.
  destruct ((400 <=? status_code r) && (status_code r <? 600)) eqn:Hs; simpl.
  { repeat split; auto; try tauto.
    intros (_ & (r' & Hr' & Hs') & _). simplify_eq. congruence. }
  unfold open_wb. destruct (open_wb_ok env out); simpl.
  2:{ repeat split; auto; try tauto. by intros (_ & _ & ?). }
  match goal with |- context [write_chunks env out ?s ?st0] =>
    pose proof (write_chunks_frame env out s st0) as Hfr;
    destruct (write_chunks env out s st0) as [res st1] end.
  simpl in Hfr. destruct Hfr as (Hp & _ & Hl & Hb & _ & _ & Hq & Hsome).
  assert (is_Some (files st1 !! out)) as Hex.
  { apply Hsome. rewrite lookup_insert_eq. by eexists. }
  assert (forall q, q <> out -> files st1 !! q = files st !! q) as Hq'.
  { intros q Hne. rewrite Hq by done. by rewrite lookup_insert_ne. }
  destruct res as [[]|e]; simpl; [|destruct e; simpl];
    (repeat split; auto; eauto).
Qed.



Lemma render_kroki_cases st :
  is_Some (files st !! out) \/ files st !! out = None.
Proof. destruct (files st !! out); [left; by eexists | by right]. Qed.

(** A successful call leaves the artifact in the cache. *)
Lemma render_kroki_ok_cached st p :
  fst (call st) = Ok p ->
  p = (rel, out) /\ is_Some (files (snd (call st)) !! out).
Proof.
  intros Hok. destruct (render_kroki_cases st) as [Hhit|Hmiss].
  - rewrite (render_kroki_hit st Hhit) in *. simpl in *. by simplify_eq.
  - pose proof (render_kroki_miss st Hmiss) as Hres.
    pose proof (render_kroki_miss_state st Hmiss) as (_ & _ & _ & _ & Hex).
    rewrite Hok in Hres.
    destruct (makedirs_ok env _); simpl in Hres; [|done].
    destruct (post_result env url payload) as [|r|]; [done| |done].
    destruct (error_status (status_code r)) eqn:Hs; [done|].
    destruct (open_wb_ok env out); simpl in Hres; [|done].
    destruct (delivery_of env (iter_content r) EmptyString); simplify_eq.
    split; [done|]. apply Hex. eauto.
Qed.


(** C10, as the code has it: when the POST fails (it raises, with a
    [RequestException] or with an [OSError]) or the service answers with
    a status in 400..599, which the status check rejects, the call leaves
    every file as it was: no artifact appears at the derived path, and on
    a cache miss the call ends in [KrokiError]. *)
Theorem http_error_creates_no_artifact st :
  (post_result env url payload = Failed
   \/ post_result env url payload = Refused
   \/ exists r, post_result env url payload = Responded r
                /\ error_status (status_code r) = true) ->
  files (snd (call st)) = files st
  /\ (files st !! out = None ->
      files (snd (call st)) !! out = None
      /\ exists msg, fst (call st) = Raise (KrokiError msg)).
Proof.
  intros Herr.
  destruct (render_kroki_cases st) as [Hhit|Hmiss].
  - rewrite (render_kroki_hit st Hhit). simpl. split; [done|].
    intros Hnone. rewrite Hnone in Hhit. by destruct Hhit.
  - pose proof (render_kroki_miss st Hmiss) as Hres.
    pose proof (render_kroki_miss_state st Hmiss) as (Hq & _ & _ & _ & Hex).
    assert (files (snd (call st)) !! out = None) as Hnone.
    { apply eq_None_not_Some. intros Hsome. apply Hex in Hsome.
      destruct Hsome as (_ & (r & Hr & Hs) & _).
      destruct Herr as [Hf|[Hf|(r' & Hr' & Hs')]]; [congruence..|].
      rewrite Hr in Hr'. injection Hr' as <-. congruence. }
    split; [|intros _; split; [done|]].
    + apply map_eq. intros q. destruct (decide (q = out)) as [->|Hne].
      * by rewrite Hnone, Hmiss.
      * by apply Hq.
    + rewrite Hres. destruct (makedirs_ok env _); simpl; [|by eauto].
      destruct Herr as [-> | [-> | (r & -> & ->)]]; by eauto.
Qed.

Lemma append_cons c a b : String c a +:+ b = String c (a +:+ b).
Proof. reflexivity. Qed.

Lemma truthy_append_r a b : Py.truthy b = true -> Py.truthy (a +:+ b) = true.
Proof. destruct a; [done|]. by rewrite append_cons. Qed.

Lemma truthy_append_l a b : Py.truthy a = true -> Py.truthy (a +:+ b) = true.
Proof. destruct a; [done|]. by rewrite append_cons. Qed.

Lemma endswith_append c a b :
  Py.truthy b = true -> Py.endswith c (a +:+ b) = Py.endswith c b.
Proof.
  intros Hb. induction a as [|d a IH]; [done|].
  rewrite append_cons. pose proof (truthy_append_r a b Hb) as Hab.
  simpl. destruct (a +:+ b); [done|]. exact IH.
Qed.

Lemma startswith_append c a b :
  Py.truthy a = true -> Py.startswith c (a +:+ b) = Py.startswith c a.
Proof. destruct a; [done|]. by rewrite append_cons. Qed.

(** [join] of plain components is the components with a separator between. *)
Lemma join2_plain a b :
  plain_dir a = true -> relative b = true ->
  PosixPath.join2 a b = a +:+ "/" +:+ b.
Proof.
  unfold plain_dir, relative, PosixPath.join2.
  intros [Ht He%negb_true_iff]%andb_prop Hb%negb_true_iff.
  by rewrite Hb, Ht, He.
Qed.

Lemma fname_relative :
  relative prefix = true ->
  relative (fname builder diagram_type diagram_source output_format prefix) = true.
Proof.
  unfold relative, fname. destruct prefix as [|c p]; [done|].
  by rewrite append_cons.
Qed.

(** C9: a call that succeeds returns the artifact's two paths: the name
    is [<prefix>-<hex sha1 of the key>.<output_format>], the absolute path
    joins the output directory, the image directory and that name, the
    relative path joins the builder's image path and that name, and the
    file is there.  With plain directory names the absolute path reads
    [<outdir>/<imagedir>/<name>]. *)
Theorem artifact_location st p :
  fst (call st) = Ok p ->
  let name :=
    prefix +:+ "-"
      +:+ Sha1.hexdigest (Py.encode (url +:+ Py.str_dict payload))
      +:+ "." +:+ output_format in
  p = (PosixPath.join (imgpath builder) [name],
       PosixPath.join (outdir builder) [imagedir builder; name])
  /\ is_Some (files (snd (call st)) !! snd p)
  /\ (plain_dir (outdir builder) = true -> plain_dir (imagedir builder) = true ->
      relative (imagedir builder) = true -> relative prefix = true ->
      snd p = (outdir builder +:+ "/" +:+ imagedir builder) +:+ "/" +:+ name).
Proof.
  intros Hok name. destruct (render_kroki_ok_cached st p Hok) as [-> Hfile].
  split; [done|]. split; [done|].
  intros Ho Hi Hri Hrp. simpl. unfold out, outfn, PosixPath.join. simpl.
  rewrite (join2_plain _ _ Ho Hri).
  apply join2_plain; [|by apply fname_relative].
  unfold plain_dir in *.
  apply andb_prop in Hi as [Hit Hie]. apply andb_prop in Ho as [Hot Hoe].
  apply andb_true_intro. split.
  - by apply truthy_append_l.
  - rewrite (endswith_append _ (outdir builder)) by (by apply truthy_append_r).
    by rewrite (endswith_append _ "/") by done.
Qed.

End RenderKroki.

(** ** The cache *)

(** C1: when the artifact of a request is already on disk, be it from
    before or from an earlier successful call whose files are still as it
    left them, [render_kroki] returns the path pair at once and changes
    nothing: the trace of POSTs is as it was. *)
Theorem cached_render_sends_nothing env builder ty src fmt prefix st :
  (cached builder ty src fmt prefix st
   \/ exists env0 st0 p0,
        fst (render_kroki env0 builder ty src fmt prefix st0) = Ok p0
        /\ files st = files (snd (render_kroki env0 builder ty src fmt prefix st0))) ->
  render_kroki env builder ty src fmt prefix st =
    (Ok (relfn builder ty src fmt prefix, outfn builder ty src fmt prefix), st)
  /\ posts (snd (render_kroki env builder ty src fmt prefix st)) = posts st.
Proof.
  intros Hc.
  assert (is_Some (files st !! outfn builder ty src fmt prefix)) as Hhit.
  { destruct Hc as [Hc|(env0 & st0 & p0 & Hok & Hfiles)]; [exact Hc|].
    rewrite Hfiles. by eapply render_kroki_ok_cached. }
  by rewrite (render_kroki_hit env builder ty src fmt prefix st Hhit).
Qed.

Lemma cached_render_sends_nothing_witness :
  length (posts Example.st1) = 1%nat
  /\ render_kroki Example.offline Example.builder "mermaid" "A->B: hi" "svg" "kroki"
       Example.st1 =
       (Ok (relfn Example.builder "mermaid" "A->B: hi" "svg" "kroki",
            outfn Example.builder "mermaid" "A->B: hi" "svg" "kroki"), Example.st1)
  /\ posts (snd (render_kroki Example.offline Example.builder
                   "mermaid" "A->B: hi" "svg" "kroki" Example.st1))
     = posts Example.st1.
Proof.
  split; [vm_compute; reflexivity|].
  apply (cached_render_sends_nothing Example.offline Example.builder
           "mermaid" "A->B: hi" "svg" "kroki" Example.st1).
  right. exists (Example.service 200), Example.st0, Example.paths.
  split; [vm_compute; reflexivity | unfold Example.st1; exact eq_refl].
Defined.

(** C2: the cache key, and with it the artifact's name, is a function of
    the service URL, the diagram source, the diagram type and the output
    format (and the name of the prefix) alone: builders that agree on the
    URL derive the same key and name, and what a successful call returns
    does not depend on the state of the file system or of the network. *)
Theorem cache_key_deterministic b1 b2 ty src fmt prefix :
  kroki_url (config b1) = kroki_url (config b2) ->
  hashkey b1 ty src fmt = hashkey b2 ty src fmt
  /\ fname b1 ty src fmt prefix = fname b2 ty src fmt prefix
  /\ forall env1 env2 st1 st2 p1 p2,
       fst (render_kroki env1 b1 ty src fmt prefix st1) = Ok p1 ->
       fst (render_kroki env2 b1 ty src fmt prefix st2) = Ok p2 ->
       p1 = p2.
Proof.
  intros Hurl. unfold fname, hashkey. rewrite Hurl. split; [done|]. split; [done|].
  intros env1 env2 st1 st2 p1 p2 H1 H2.
  apply render_kroki_ok_cached in H1 as [-> _].
  by apply render_kroki_ok_cached in H2 as [-> _].
Qed.

Lemma cache_key_deterministic_witness :
  kroki_url (config Example.builder) = kroki_url (config Example.builder2)
  /\ fname Example.builder "mermaid" "A->B: hi" "svg" "kroki"
     = fname Example.builder2 "mermaid" "A->B: hi" "svg" "kroki".
Proof.
  split; [exact eq_refl|].
  exact (proj1 (proj2 (cache_key_deterministic Example.builder Example.builder2
                         "mermaid" "A->B: hi" "svg" "kroki" eq_refl))).
Defined.

Lemma artifact_location_witness :
  let call := render_kroki (Example.service 200) Example.builder
                "mermaid" "A->B: hi" "svg" "kroki" in
  let p := ("_images/kroki-d903706aba5a4757c4c78dedaa2bf0ce38c78b59.svg",
            "/out/_images/kroki-d903706aba5a4757c4c78dedaa2bf0ce38c78b59.svg") in
  fst (call Example.st0) = Ok p
  /\ is_Some (files (snd (call Example.st0)) !! snd p).
Proof.
  intros call p.
  assert (fst (call Example.st0) = Ok p) as Hok by (vm_compute; reflexivity).
  split; [exact Hok|].
  exact (proj1 (proj2 (artifact_location (Example.service 200) Example.builder
                         "mermaid" "A->B: hi" "svg" "kroki" Example.st0 p Hok))).
Defined.

Lemma http_error_creates_no_artifact_witness :
  let call := render_kroki (Example.service 500) Example.builder
                "mermaid" "A->B: hi" "svg" "kroki" in
  error_status 500 = true
  /\ files (snd (call Example.st0)) = files Example.st0.
Proof.
  intros call. split; [reflexivity|].
  apply (http_error_creates_no_artifact (Example.service 500) Example.builder
           "mermaid" "A->B: hi" "svg" "kroki" Example.st0).
  right. right. eexists. split; reflexivity.
Defined.


(** C10 as the specification words it fails on the same answer: a 304
    is no success, and the artifact is created all the same, with the
    body of the answer in it. *)
Lemma status_304_creates_the_artifact :
  let call := render_kroki (Example.service 304) Example.builder
                "mermaid" "A->B: hi" "svg" "kroki" in
  status_non_2xx (Example.service 304) Example.builder "mermaid" "A->B: hi" "svg"
  /\ files Example.st0 !! snd Example.paths = None
  /\ files (snd (call Example.st0)) !! snd Example.paths = Some "<svg/>".
Proof.
  intros call. split; [vm_compute; reflexivity|].
  split; vm_compute; reflexivity.
Qed.

(** ** The directive parser *)

Definition or_else {A} (a b : option A) : option A :=
  match a with Some x => Some x | None => b end.

Lemma last_filter_cons (kind : string -> bool) a l :
  last (List.filter kind (a :: l)) =
    or_else (last (List.filter kind l)) (if kind a then Some a else None).
Proof.
  simpl. destruct (kind a); [|by destruct (last _)].
  rewrite last_cons. by destruct (last _).
Qed.

Lemma classify_step f t o a :
  classify (f, t, o) a =
    if Py.contains types a then (f, Some a, o)
    else if Py.contains formats a then (f, t, Some a)
    else (Some a, t, o).
Proof. reflexivity. Qed.

(** The loop over the arguments keeps the last argument of each kind. *)
Lemma classify_fold args f t o :
  fold_left classify args (f, t, o) =
    (or_else (last (List.filter filename_like args)) f,
     or_else (last (List.filter type_like args)) t,
     or_else (last (List.filter format_like args)) o).
Proof.
  revert f t o. induction args as [|a args IH]; intros f t o; [done|].
  rewrite !last_filter_cons. cbn [fold_left].
  assert (filename_like a
          = negb (Py.contains types a) && negb (Py.contains formats a)) as -> by done.
  assert (type_like a = Py.contains types a) as -> by done.
  assert (format_like a
          = negb (Py.contains types a) && Py.contains formats a) as -> by done.
  rewrite (classify_step f t o a).
  destruct (Py.contains types a), (Py.contains formats a); cbn [negb andb];
    rewrite IH; by repeat destruct (last _).
Qed.

Lemma is_not_None_exists (kind : string -> bool) args :
  is_not_None (last (List.filter kind args)) = true <->
  exists a, a ∈ args /\ kind a = true.
Proof.
  induction args as [|a args IH].
  - simpl. split; [done|]. intros (a & Ha & _). by apply elem_of_nil in Ha.
  - rewrite last_filter_cons. destruct (last (List.filter kind args)) eqn:Hl; simpl.
    + split; [|done]. intros _. destruct (proj1 IH eq_refl) as (b & Hb & Hk).
      exists b. split; [by apply elem_of_cons; right | done].
    + destruct (kind a) eqn:Hk; simpl.
      * split; [|done]. intros _. exists a. split; [by apply elem_of_cons; left | done].
      * split; [done|]. intros (b & [->|Hb]%elem_of_cons & Hkb); [congruence|].
        apply IH. eauto.
Qed.

Section Run.

Variable benv : BuildEnvironment.
Variable self : Directive.
Variable st : State.

(** [run], read against the rules.  It raises when it gets as far as
    reading a file that is not UTF-8 text; else it returns the warning of
    the earliest rule the directive violates, or the node the directive
    stands for.  It notes the dependency once the two checks on the
    filename have passed, and the reporter is given what [reported] lists. *)
Lemma run_spec :
  run benv self st =
    (if decode_error benv self st then Raise UnicodeDecodeError
     else Ok (expected benv self st),
     set_reports (fun rs => rs ++ reported benv self st)
       (if violates benv self st FilenameAmbiguity
           || violates benv self st ContentAmbiguity
        then st
        else match resolved_filename self with
             | Some f =>
                 noted (fst (relfn2path benv (search_image_for_language benv f))) st
             | None => st
             end)).
Proof.
  destruct st as [fs ds ps deps reps lg bd].
  unfold run, reported, decode_error, undecodable, file_bytes, expected,
    first_violation, rules, parsed, parsed_node, noted.
  rewrite classify_fold. simpl or_else.
  unfold violates, diagnostic, resolved_type, resolved_format, diagram_text,
    file_bytes, resolved_path, resolved_filename, block_content, last_arg.
  unfold warn, reporter_warning, figure_wrapper, note_dependency, open_read,
    Py.decode_utf8, set_reports, set_dependencies.
  unfold_monad. cbn [files lineno].
  destruct (last (List.filter filename_like (arguments self))) as [af|];
    destruct (opt_filename (options self)) as [fo|]; simpl; try done.
  all: destruct (Py.truthy (Py.strip (Py.join nl (content self)))) eqn:Hc;
    simpl; try done.
  all: try (destruct (relfn2path benv _) as [rel path] eqn:Hp; simpl;
            destruct (fs !! path) as [bytes|] eqn:Hf; simpl; try done;
            destruct (Py.valid_utf8 bytes) eqn:Hv; simpl;
            [|by rewrite app_nil_r];
            destruct (Py.truthy (Py.strip (Py.universal_newlines bytes))) eqn:Ht;
            simpl; try done).
  all: rewrite ?Hc; simpl; try done.
  all: destruct (opt_type (options self)) as [ot|];
    destruct (last (List.filter type_like (arguments self))) as [ta|];
    simpl; try done.
  all: try (destruct (extension_type_map !! PosixPath.splitext_ext path) as [et|];
            simpl; try done).
  all: destruct (opt_format (options self)) as [fo'|];
    destruct (last (List.filter format_like (arguments self))) as [fa|];
    simpl; try done.
  all: destruct (opt_caption (options self)); simpl; by rewrite ?app_nil_r.
Qed.

Lemma run_outcome :
  fst (run benv self st) =
    if decode_error benv self st then Raise UnicodeDecodeError
    else Ok (expected benv self st).
Proof. by rewrite run_spec. Qed.

End Run.

Lemma first_violation_exists benv self st r0 :
  violates benv self st r0 = true ->
  exists r, first_violation benv self st = Some r.
Proof.
  intros Hv. unfold first_violation.
  destruct (List.find _ rules) as [r|] eqn:Hfind; [by eexists|].
  pose proof (List.find_none _ _ Hfind r0) as Hnone.
  rewrite Hnone in Hv; [done|]. unfold rules. destruct r0; simpl; tauto.
Qed.

Lemma first_violation_earliest benv self st r :
  violates benv self st r = true ->
  (forall r', (rule_index r' < rule_index r)%nat -> violates benv self st r' = false) ->
  first_violation benv self st = Some r.
Proof.
  intros Hv Hearlier. unfold first_violation, rules. cbn [List.find].
  destruct r; cbn [rule_index] in Hearlier.
  all: repeat first
    [ rewrite Hv; reflexivity
    | rewrite (Hearlier FilenameAmbiguity) by (cbn [rule_index]; lia)
    | rewrite (Hearlier ContentAmbiguity) by (cbn [rule_index]; lia)
    | rewrite (Hearlier FileReadFailure) by (cbn [rule_index]; lia)
    | rewrite (Hearlier MissingContent) by (cbn [rule_index]; lia)
    | rewrite (Hearlier TypeAmbiguity) by (cbn [rule_index]; lia)
    | rewrite (Hearlier UnresolvedType) by (cbn [rule_index]; lia) ].
Qed.

Lemma no_arg_of_kind (kind : string -> bool) args :
  (forall a, a ∈ args -> kind a = false) ->
  last (List.filter kind args) = None.
Proof.
  intros Hall. destruct (last (List.filter kind args)) eqn:Hl; [|done].
  assert (is_not_None (last (List.filter kind args)) = true) as Hs by (by rewrite Hl).
  apply is_not_None_exists in Hs as (a & Ha & Hk). rewrite (Hall a Ha) in Hk. done.
Qed.

Lemma is_not_None_true {A} (o : option A) : is_not_None o = true <-> is_Some o.
Proof.
  destruct o; simpl; split; try done; try (by eexists); by intros [? ?].
Qed.

(** A literal is not in a tuple of literals. *)
Ltac not_among :=
  match goal with
  | |- ?x ∉ ?l => apply (bool_decide_eq_false_1 (x ∈ l)); vm_compute; reflexivity
  end.

(** A literal is in a tuple of literals. *)
Ltac among :=
  match goal with
  | |- ?x ∈ ?l => apply (bool_decide_eq_true_1 (x ∈ l)); vm_compute; reflexivity
  end.

Lemma formats_not_types a : a ∈ formats -> a ∉ types.
Proof.
  unfold formats. rewrite !elem_of_cons, elem_of_nil.
  intros [->|[->|[->|[->|[->|[->|[]]]]]]]; not_among.
Qed.

(** C5, where the code leaves the order of the rules: a directive that
    names a file which is there but is not UTF-8 text, and that gives its
    type twice.  The earliest rule it violates is the third, the read of
    the file failing; its type conflict is the fifth.  [run] returns the
    warning of neither: the read raises [UnicodeDecodeError], which the
    handler for a failed read does not catch. *)
Theorem undecodable_file_is_not_diagnosed :
  first_violation Example.benv Example.twice_on_file Example.st_bad_file
    = Some FileReadFailure
  /\ violates Example.benv Example.twice_on_file Example.st_bad_file TypeAmbiguity
     = true
  /\ fst (run Example.benv Example.twice_on_file Example.st_bad_file)
     = Raise UnicodeDecodeError
  /\ fst (run Example.benv Example.twice_on_file Example.st0)
     = Ok [warning (msg_read_failed "/src/bad.puml") 7].
Proof. repeat split; vm_compute; reflexivity. Qed.

(** Each of the four conflicts violates a rule. *)
Lemma conflict_violates_rule benv self st :
  (is_Some (opt_filename (options self))
     /\ exists a, a ∈ arguments self /\ (a ∉ types) /\ (a ∉ formats))
  \/ (Py.truthy (Py.strip (Py.join nl (content self))) = true
      /\ is_Some (resolved_filename self))
  \/ (is_Some (opt_type (options self))
      /\ exists a, a ∈ arguments self /\ a ∈ types)
  \/ (is_Some (opt_format (options self))
      /\ exists a, a ∈ arguments self /\ a ∈ formats) ->
  exists r, violates benv self st r = true.
Proof.
  intros [[Ho (a & Ha & Hnt & Hnf)]
         |[[Hc Hf]
         |[[Ho (a & Ha & Ht)]
         |[Ho (a & Ha & Hf)]]]].
  - exists FilenameAmbiguity. simpl. apply andb_true_intro. split.
    + by apply is_not_None_true.
    + apply is_not_None_exists. exists a. split; [done|].
      unfold filename_like, Py.contains.
      by rewrite !bool_decide_eq_false_2.
  - exists ContentAmbiguity. simpl. apply andb_true_intro. split; [done|].
    by apply is_not_None_true.
  - exists TypeAmbiguity. simpl. apply andb_true_intro. split.
    + by apply is_not_None_true.
    + apply is_not_None_exists. exists a. split; [done|].
      unfold type_like, Py.contains. by rewrite bool_decide_eq_true_2.
  - exists FormatAmbiguity. simpl. apply andb_true_intro. split.
    + by apply is_not_None_true.
    + apply is_not_None_exists. exists a. split; [done|].
      unfold format_like, Py.contains.
      rewrite bool_decide_eq_false_2 by (by apply formats_not_types).
      by rewrite bool_decide_eq_true_2.
Qed.

(** C4, where the code fails it: a [type] option with a type argument,
    on a directive that names a file which is there but is not UTF-8
    text.  [run] returns no warning node: it raises [UnicodeDecodeError]
    when it reads the file, before it comes to the check of the type. *)
Theorem type_conflict_on_undecodable_file_raises :
  is_Some (opt_type (options Example.twice_on_file))
  /\ ("mermaid" ∈ arguments Example.twice_on_file /\ "mermaid" ∈ types)
  /\ Py.decode_utf8 (String (ascii_of_N 255) EmptyString) = None
  /\ fst (run Example.benv Example.twice_on_file Example.st_bad_file)
     = Raise UnicodeDecodeError
  /\ forall ns,
       fst (run Example.benv Example.twice_on_file Example.st_bad_file) <> Ok ns.
Proof.
  assert (fst (run Example.benv Example.twice_on_file Example.st_bad_file)
          = Raise UnicodeDecodeError) as Hraise by (vm_compute; reflexivity).
  split; [by eexists|]. split; [split; among|]. split; [vm_compute; reflexivity|].
  split; [exact Hraise|]. intros ns Hns. rewrite Hraise in Hns. discriminate.
Qed.

(** C6: a directive that names a file and gives no type, neither as
    option nor as argument, gets its type from the extension of the path
    the file resolves to, through [extension_type_map]; an extension the
    map does not have ends in the warning that a type is required.  A
    [.puml] path gives [plantuml].  (The rules listed before are taken to
    pass: one filename, no block content, a file that reads as text and
    has some.) *)
Theorem type_inferred_from_extension benv self st f text :
  resolved_filename self = Some f ->
  violates benv self st FilenameAmbiguity = false ->
  violates benv self st ContentAmbiguity = false ->
  diagram_text benv self st = Some text ->
  Py.truthy (Py.strip text) = true ->
  opt_type (options self) = None ->
  (forall a, a ∈ arguments self -> a ∉ types) ->
  match extension_type_map
          !! PosixPath.splitext_ext
               (snd (relfn2path benv (search_image_for_language benv f))) with
  | Some t =>
      violates benv self st FormatAmbiguity = false ->
      exists n, fst (run benv self st) = Ok [n]
                /\ node_type <$> kroki_of n = Some t
  | None => fst (run benv self st) = Ok [warning msg_type_required (lineno self)]
  end
  /\ extension_type_map !! ".puml" = Some "plantuml".
Proof.
  intros Hf H1 H2 Hdt Htext Hot Hargs.
  set (path := snd (relfn2path benv (search_image_for_language benv f))) in *.
  assert (resolved_path benv self = Some path) as Hpath.
  { unfold resolved_path. by rewrite Hf. }
  assert (decode_error benv self st = false) as Hde.
  { unfold decode_error, undecodable, file_bytes. rewrite Hpath.
    unfold diagram_text in Hdt. rewrite Hpath in Hdt.
    destruct (files st !! path) as [bytes|]; [|done].
    destruct (Py.decode_utf8 bytes); [|done]. simpl. by rewrite !andb_false_r. }
  assert (last_arg self type_like = None) as Hta.
  { apply no_arg_of_kind. intros a Ha. unfold type_like, Py.contains.
    apply bool_decide_eq_false_2. by apply Hargs. }
  assert (resolved_type benv self
          = extension_type_map !! PosixPath.splitext_ext path) as Hrt.
  { unfold resolved_type. by rewrite Hot, Hta, Hpath. }
  assert (violates benv self st FileReadFailure = false) as H3.
  { simpl. by rewrite Hpath, Hdt. }
  assert (violates benv self st MissingContent = false) as H4.
  { simpl. rewrite Hdt. simpl. by rewrite Htext. }
  assert (violates benv self st TypeAmbiguity = false) as H5.
  { simpl. by rewrite Hot. }
  split; [|by vm_compute].
  rewrite run_outcome, Hde. unfold expected, first_violation, rules. cbn [List.find].
  rewrite H1, H2, H3, H4, H5.
  destruct (extension_type_map !! PosixPath.splitext_ext path) as [t|] eqn:Hext.
  - intros H7.
    assert (violates benv self st UnresolvedType = false) as ->.
    { simpl. by rewrite Hrt. }
    rewrite H7. eexists. split; [reflexivity|].
    unfold parsed, parsed_node. rewrite Hrt.
    by destruct (opt_caption (options self)).
  - assert (violates benv self st UnresolvedType = true) as ->; [|done].
    simpl. by rewrite Hrt.
Qed.

Lemma type_inferred_from_extension_witness :
  resolved_filename Example.from_file = Some "diagram.puml"
  /\ diagram_text Example.benv Example.from_file Example.st_file = Some "Alice -> Bob"
  /\ exists n, fst (run Example.benv Example.from_file Example.st_file) = Ok [n]
               /\ node_type <$> kroki_of n = Some "plantuml".
Proof.
  split; [reflexivity|]. split; [vm_compute; reflexivity|].
  assert (forall a, a ∈ arguments Example.from_file -> a ∉ types) as Hargs.
  { intros a [->|Ha]%elem_of_cons; [not_among | by apply elem_of_nil in Ha]. }
  exact (proj1 (type_inferred_from_extension Example.benv Example.from_file
                  Example.st_file "diagram.puml" "Alice -> Bob"
                  eq_refl eq_refl eq_refl eq_refl eq_refl eq_refl Hargs) eq_refl).
Defined.

(** ** The embedder *)

Lemma render_kroki_keeps_translator env builder ty src fmt prefix st :
  body (snd (render_kroki env builder ty src fmt prefix st)) = body st
  /\ log (snd (render_kroki env builder ty src fmt prefix st)) = log st.
Proof.
  destruct (render_kroki_cases builder ty src fmt prefix st) as [Hhit|Hmiss].
  - by rewrite (render_kroki_hit env builder ty src fmt prefix st Hhit).
  - by destruct (render_kroki_miss_state env builder ty src fmt prefix st Hmiss)
      as (_ & Hl & Hb & _).
Qed.

(** C8: when [render_kroki] fails for a node, [render_html] logs one
    warning that carries the diagram type, the output format and the
    source text (as [%r] prints it) with the error's message, appends
    nothing to the body and raises [SkipNode]; the writer's walk takes
    that as the node being done, so no error leaves the build. *)
Theorem render_failure_logged_and_skipped env builder n k st msg :
  kroki_of n = Some k ->
  fst (render_kroki env builder (node_type k) (node_code k)
         (default (kroki_output_format (config builder)) (node_format k))
         "kroki" st) = Raise (KrokiError msg) ->
  fst (render_html env builder k (node_type k) (node_code k) (node_options k)
         "kroki" None st) = Raise SkipNode
  /\ fst (visit env builder n st) = Ok tt
  /\ body (snd (visit env builder n st)) = body st
  /\ log (snd (visit env builder n st)) =
       log st ++ ["kroki " +:+ node_type k +:+ " diagram ("
                    +:+ default (kroki_output_format (config builder)) (node_format k)
                    +:+ ") with code " +:+ Py.repr (node_code k) +:+ ": " +:+ msg].
Proof.
  intros Hk Hfail.
  destruct (render_kroki_keeps_translator env builder (node_type k) (node_code k)
              (default (kroki_output_format (config builder)) (node_format k))
              "kroki" st) as [Hbody Hlog].
  assert (visit env builder n = visit env builder (kroki_node k)) as ->.
  { destruct n; simpl in Hk; by simplify_eq. }
  unfold visit, html_visit_kroki, render_html, logger_warning. unfold_monad.
  destruct (render_kroki env builder (node_type k) (node_code k) _ "kroki" st)
    as [res st1].
  simpl in Hfail, Hbody, Hlog. subst res. simpl. by rewrite Hbody, Hlog.
Qed.

Lemma render_failure_logged_and_skipped_witness :
  fst (render_kroki (Example.service 500) Example.builder "mermaid" "A->B: hi"
         "svg" "kroki" Example.st0) = Raise (KrokiError msg_no_diagram)
  /\ fst (process Example.benv (Example.service 500) Example.builder
            Example.plain Example.st0) = Ok tt
  /\ log (snd (visit (Example.service 500) Example.builder
                  (parsed Example.benv Example.plain Example.st0) Example.st0)) =
       ["kroki mermaid diagram (svg) with code 'A->B: hi': kroki did not produce a diagram"].
Proof.
  assert (fst (render_kroki (Example.service 500) Example.builder "mermaid"
                 "A->B: hi" "svg" "kroki" Example.st0)
          = Raise (KrokiError msg_no_diagram)) as Hfail by (vm_compute; reflexivity).
  split; [exact Hfail|]. split; [vm_compute; reflexivity|].
  exact (proj2 (proj2 (proj2
    (render_failure_logged_and_skipped (Example.service 500) Example.builder
       (parsed Example.benv Example.plain Example.st0)
       (parsed_node Example.benv Example.plain Example.st0)
       Example.st0 msg_no_diagram eq_refl Hfail)))).
Defined.

(** What [render_html] appends after a successful render that is not
    inlined: the image reference, with the escaped and stripped caption of
    the options mapping as alternate text, else the diagram source. *)
Lemma render_html_image env builder k ty src (options : gmap string string)
    prefix cls st fname outfn :
  fst (render_kroki env builder ty src
         (default (kroki_output_format (config builder)) (node_format k))
         prefix st) = Ok (fname, outfn) ->
  bool_decide (default (kroki_output_format (config builder)) (node_format k) = "svg")
    && kroki_inline_svg (config builder) = false ->
  fst (render_html env builder k ty src options prefix cls st) = Raise SkipNode
  /\ body (snd (render_html env builder k ty src options prefix cls st)) =
       body st
       ++ ["<div class=" +:+ dq +:+ class_attr cls ty k +:+ dq +:+ ">"]
       ++ match node_align k with
          | Some align =>
              ["<div align=" +:+ dq +:+ align +:+ dq +:+ " class=" +:+ dq
                 +:+ "align-" +:+ align +:+ dq +:+ ">"]
          | None => []
          end
       ++ [img_link fname
             (Py.strip (html_encode (default src (options !! "caption"))))]
       ++ match node_align k with
          | Some _ => ["</div>" +:+ nl]
          | None => []
          end
       ++ ["</div>" +:+ nl].
Proof.
  intros Hok Hinline.
  destruct (render_kroki_keeps_translator env builder ty src
              (default (kroki_output_format (config builder)) (node_format k))
              prefix st) as [Hbody _].
  unfold render_html, body_append. unfold_monad.
  destruct (render_kroki env builder ty src _ prefix st) as [res st1].
  simpl in Hok, Hbody. subst res. simpl. rewrite Hinline.
  destruct (node_align k); simpl; rewrite Hbody; split; try done;
    by rewrite <- !app_assoc.
Qed.

(** A file that does not decode is a file whose read fails: a directive
    that violates no rule is read without a decoding error. *)
Lemma decode_error_violates benv self st :
  decode_error benv self st = true ->
  violates benv self st FileReadFailure = true.
Proof.
  unfold decode_error, undecodable, file_bytes. cbn [violates].
  unfold diagram_text.
  destruct (resolved_path benv self) as [path|]; [|by rewrite andb_false_r].
  destruct (files st !! path) as [bytes|]; [|by rewrite andb_false_r].
  destruct (Py.decode_utf8 bytes); [by rewrite andb_false_r | done].
Qed.

Lemma accepted_is_decoded benv self st :
  first_violation benv self st = None -> decode_error benv self st = false.
Proof.
  intros Hnone. apply not_true_is_false. intros Hd.
  apply decode_error_violates in Hd.
  destruct (first_violation_exists benv self st _ Hd) as [r Hr]. congruence.
Qed.

(** The options mapping of a node made by [run] has no caption. *)
Lemma run_never_sets_caption benv self st n k :
  fst (run benv self st) = Ok [n] ->
  kroki_of n = Some k ->
  node_options k !! "caption" = None.
Proof.
  rewrite run_outcome. destruct (decode_error benv self st); [done|].
  unfold expected, parsed, parsed_node.
  destruct (first_violation benv self st); intros [= <-]; [done|].
  destruct (opt_caption (options self)); simpl; intros [= <-]; done.
Qed.

(** End to end, the alternate text of the image reference is the escaped
    and stripped diagram source, with or without a [caption] option: the
    caption goes to the figure and never to the node's options. *)
Lemma end_to_end_alternate_text benv env builder self st fname outfn :
  first_violation benv self st = None ->
  fst (render_kroki env builder
         (node_type (parsed_node benv self st)) (node_code (parsed_node benv self st))
         (default (kroki_output_format (config builder))
                  (node_format (parsed_node benv self st)))
         "kroki" (snd (run benv self st))) = Ok (fname, outfn) ->
  bool_decide (default (kroki_output_format (config builder))
                       (node_format (parsed_node benv self st)) = "svg")
    && kroki_inline_svg (config builder) = false ->
  fst (process benv env builder self st) = Ok tt
  /\ img_link fname (Py.strip (html_encode (node_code (parsed_node benv self st))))
       ∈ body (snd (process benv env builder self st)).
Proof.
  intros Hnone Hok Hinline.
  pose proof (run_outcome benv self st) as Hrun.
  rewrite (accepted_is_decoded benv self st Hnone) in Hrun.
  unfold expected in Hrun. rewrite Hnone in Hrun.
  unfold process. unfold_monad.
  destruct (run benv self st) as [res st'] eqn:Hr.
  cbn [fst snd] in Hrun, Hok. subst res.
  set (k := parsed_node benv self st) in *.
  assert (exists k', visit env builder (parsed benv self st)
                     = visit env builder (kroki_node k')
                     /\ node_type k' = node_type k /\ node_code k' = node_code k
                     /\ node_format k' = node_format k
                     /\ node_options k' = {[ "docname" := docname benv ]})
    as (k' & Hv & Hty & Hcode & Hfmt & Hopts).
  { unfold parsed. fold k. destruct (opt_caption (options self)).
    - by eexists (mkKroki _ _ _ _ _ _).
    - by exists k. }
  cbn [walkabout]. rewrite Hv. unfold visit, html_visit_kroki. unfold_monad.
  rewrite <- Hty, <- Hcode, <- Hfmt in Hok. rewrite <- Hfmt in Hinline.
  destruct (render_html_image env builder k' (node_type k') (node_code k')
              (node_options k') "kroki" None st' fname outfn Hok Hinline)
    as [Hskip Hbody].
  destruct (render_html env builder k' _ _ _ "kroki" None st') as [res st2].
  simpl in Hskip, Hbody. subst res. simpl. split; [done|].
  rewrite Hbody, Hopts, lookup_singleton_ne, Hcode by done. simpl.
  set_solver.
Qed.

(** C3, on the specification's example with a caption: the image
    reference that a captioned directive ends in has the escaped diagram
    source as alternate text, exactly as without the caption; the caption
    [Greeting] is not in it. *)
Theorem caption_is_not_the_alternate_text :
  opt_caption (options Example.captioned) = Some "Greeting"
  /\ body (snd (process Example.benv (Example.service 200) Example.builder
                  Example.captioned Example.st0)) =
       ["<div class=" +:+ dq +:+ "kroki kroki-mermaid" +:+ dq +:+ ">";
        img_link (fst Example.paths) "A-&gt;B: hi";
        "</div>" +:+ nl]
  /\ body (snd (process Example.benv (Example.service 200) Example.builder
                  Example.captioned Example.st0)) =
     body (snd (process Example.benv (Example.service 200) Example.builder
                  Example.plain Example.st0)).
Proof.
  split; [reflexivity|]. split; vm_compute; reflexivity.
Qed.

(** * More of the module *)

(** ** The directive parser: effects and results *)

(** The state [run] leaves: the dependency noted when it got as far as
    reading the file, and the reporter given its messages. *)
Lemma run_state benv self st :
  snd (run benv self st) =
    set_reports (fun rs => rs ++ reported benv self st)
      (if violates benv self st FilenameAmbiguity
          || violates benv self st ContentAmbiguity
       then st
       else match resolved_filename self with
            | Some f =>
                noted (fst (relfn2path benv (search_image_for_language benv f))) st
            | None => st
            end).
Proof. by rewrite run_spec. Qed.

Lemma run_keeps_files benv self st :
  files (snd (run benv self st)) = files st
  /\ dirs (snd (run benv self st)) = dirs st
  /\ posts (snd (run benv self st)) = posts st
  /\ log (snd (run benv self st)) = log st
  /\ body (snd (run benv self st)) = body st.
Proof.
  rewrite run_state.
  destruct (violates benv self st FilenameAmbiguity
            || violates benv self st ContentAmbiguity); [done|].
  by destruct (resolved_filename self).
Qed.

(** X1: the effects of [run].  It sends no request, writes no file, makes
    no directory, gives nothing to the module's logger and appends nothing
    to the HTML body.  It adds the relative path of the named file to the
    dependencies once the two ambiguity checks on the filename have
    passed, whether or not the file can then be read; and the docutils
    reporter, whose messages Sphinx logs, is given the warning [run]
    returns, or else the messages of the caption's markup, and nothing
    when the read of the file raises. *)
Theorem run_effects benv self st :
  files (snd (run benv self st)) = files st
  /\ dirs (snd (run benv self st)) = dirs st
  /\ posts (snd (run benv self st)) = posts st
  /\ log (snd (run benv self st)) = log st
  /\ body (snd (run benv self st)) = body st
  /\ dependencies (snd (run benv self st)) =
       (if violates benv self st FilenameAmbiguity
           || violates benv self st ContentAmbiguity
        then dependencies st
        else match resolved_filename self with
             | Some f =>
                 {[fst (relfn2path benv (search_image_for_language benv f))]}
                   ∪ dependencies st
             | None => dependencies st
             end)
  /\ reports (snd (run benv self st)) =
       reports st
       ++ match fst (run benv self st) with
          | Ok [system_message level message line] => [(level, message, line)]
          | Ok [figure _ _ caption] => caption_messages benv caption (lineno self)
          | _ => []
          end.
Proof.
  rewrite run_outcome, run_state. unfold reported, expected, parsed.
  destruct (decode_error benv self st);
    destruct (first_violation benv self st);
    destruct (opt_caption (options self));
    destruct (violates benv self st FilenameAmbiguity
              || violates benv self st ContentAmbiguity);
    try destruct (resolved_filename self); done.
Qed.

(** X2: what [run] returns.  It raises only [UnicodeDecodeError], and
    that exactly when it gets as far as reading the named file and the
    file is there but is not UTF-8 text; otherwise it returns exactly one
    node: a warning when the directive violates a rule, else the
    diagram's node, alone or in its figure. *)
Theorem run_returns_one_node_or_raises benv self st :
  (decode_error benv self st = true
   /\ fst (run benv self st) = Raise UnicodeDecodeError)
  \/ (decode_error benv self st = false
      /\ exists n,
           fst (run benv self st) = Ok [n]
           /\ (is_warning n = true <-> exists r, violates benv self st r = true)
           /\ (is_warning n = false -> kroki_of n <> None)).
Proof.
  rewrite run_outcome.
  destruct (decode_error benv self st); [by left|right].
  split; [done|]. unfold expected.
  destruct (first_violation benv self st) as [r|] eqn:Hfirst.
  - eexists. split; [reflexivity|]. split; [|done].
    split; [|done]. intros _. exists r.
    unfold first_violation in Hfirst. by apply List.find_some in Hfirst as [_ ?].
  - exists (parsed benv self st). split; [reflexivity|].
    assert (is_warning (parsed benv self st) = false) as Hw.
    { unfold parsed. by destruct (opt_caption (options self)). }
    split.
    + rewrite Hw. split; [done|]. intros [r Hr].
      destruct (first_violation_exists benv self st r Hr) as [r' Hr'].
      congruence.
    + intros _. unfold parsed. by destruct (opt_caption (options self)).
Qed.

Lemma run_returns_one_node_or_raises_witness :
  decode_error Example.benv Example.twice_on_file Example.st_bad_file = true
  /\ fst (run Example.benv Example.twice_on_file Example.st_bad_file)
     = Raise UnicodeDecodeError.
Proof.
  assert (decode_error Example.benv Example.twice_on_file Example.st_bad_file = true)
    as Hd by (vm_compute; reflexivity).
  destruct (run_returns_one_node_or_raises Example.benv Example.twice_on_file
              Example.st_bad_file) as [Hraise|[Hfalse _]].
  - exact Hraise.
  - rewrite Hd in Hfalse. discriminate Hfalse.
Defined.

Lemma last_filter_app (kind : string -> bool) pre a post :
  kind a = true -> (forall b, b ∈ post -> kind b = false) ->
  last (List.filter kind (pre ++ a :: post)) = Some a.
Proof.
  intros Ha Hpost. rewrite List.filter_app. simpl. rewrite Ha.
  assert (List.filter kind post = []) as ->.
  { induction post as [|b post IH]; [done|]. simpl.
    rewrite (Hpost b) by (apply elem_of_cons; by left).
    apply IH. intros c Hc. apply Hpost. apply elem_of_cons. by right. }
  by rewrite last_snoc.
Qed.

(** X3: of several positional arguments that name a diagram type, the
    last one is the type of the node [run] returns, when no [type] option
    is given: the ones before it are silently dropped. *)
Theorem last_type_argument_wins benv self st pre t post n k :
  arguments self = pre ++ t :: post ->
  t ∈ types -> (forall b, b ∈ post -> b ∉ types) ->
  opt_type (options self) = None ->
  fst (run benv self st) = Ok [n] ->
  kroki_of n = Some k ->
  node_type k = t.
Proof.
  intros Hargs Ht Hpost Hot.
  assert (last_arg self type_like = Some t) as Hlast.
  { unfold last_arg. rewrite Hargs. apply last_filter_app.
    - unfold type_like, Py.contains. by apply bool_decide_eq_true_2.
    - intros b Hb. unfold type_like, Py.contains.
      apply bool_decide_eq_false_2. by apply Hpost. }
  rewrite run_outcome. destruct (decode_error benv self st); [done|].
  unfold expected.
  destruct (first_violation benv self st); intros [= <-]; [done|].
  assert (node_type (parsed_node benv self st) = t) as Hty.
  { simpl. unfold resolved_type. by rewrite Hot, Hlast. }
  unfold parsed. destruct (opt_caption (options self)); simpl; by intros [= <-].
Qed.

Lemma last_type_argument_wins_witness :
  arguments Example.two_types = ["mermaid"] ++ "plantuml" :: ["png"]
  /\ fst (run Example.benv Example.two_types Example.st0)
     = Ok [parsed Example.benv Example.two_types Example.st0]
  /\ node_type (parsed_node Example.benv Example.two_types Example.st0) = "plantuml".
Proof.
  assert (fst (run Example.benv Example.two_types Example.st0)
          = Ok [parsed Example.benv Example.two_types Example.st0]) as Hrun
    by (vm_compute; reflexivity).
  split; [reflexivity|]. split; [exact Hrun|].
  apply (last_type_argument_wins Example.benv Example.two_types
           Example.st0 ["mermaid"] "plantuml" ["png"]
           (parsed Example.benv Example.two_types Example.st0)
           (parsed_node Example.benv Example.two_types Example.st0)).
  - reflexivity.
  - among.
  - intros b [->|Hb]%elem_of_cons; [not_among | by apply elem_of_nil in Hb].
  - reflexivity.
  - exact Hrun.
  - reflexivity.
Defined.

Lemma last_filter_kind (kind : string -> bool) args a :
  last (List.filter kind args) = Some a -> kind a = true.
Proof.
  intros Hl. apply last_Some in Hl as [l Hl].
  assert (List.In a (List.filter kind args)) as Hin.
  { rewrite Hl. apply List.in_or_app. right. by left. }
  by apply List.filter_In in Hin as [_ ?].
Qed.

(** Every type the extension map gives is a diagram type. *)
Lemma extension_types e t :
  extension_type_map !! e = Some t -> t ∈ types.
Proof.
  unfold extension_type_map. intros He.
  apply elem_of_list_to_map_2 in He.
  repeat (apply elem_of_cons in He as [[= -> ->]|He]; [among|]).
  by apply elem_of_nil in He.
Qed.

Lemma choice_member a values v :
  Docutils.choice a values = Some v -> v ∈ values.
Proof.
  unfold Docutils.choice, Py.contains. destruct a as [a|]; [|done].
  case_bool_decide; [|done]. by intros [= <-].
Qed.

(** X4: the request a node stands for is well-formed: when the [type] and
    [format] options went through their converters, the type of every node
    [run] builds is one of [types], and its format, when it has one, is
    one of [formats]. *)
Theorem node_request_is_valid benv self st n k :
  converted (options self) ->
  fst (run benv self st) = Ok [n] ->
  kroki_of n = Some k ->
  node_type k ∈ types
  /\ (forall f, node_format k = Some f -> f ∈ formats).
Proof.
  intros [Hct Hcf]. rewrite run_outcome.
  destruct (decode_error benv self st); [done|]. unfold expected.
  destruct (first_violation benv self st) as [r|] eqn:Hfirst; intros [= <-]; [done|].
  assert (violates benv self st UnresolvedType = false) as Htype.
  { unfold first_violation in Hfirst.
    apply (List.find_none _ _ Hfirst). unfold rules. simpl. tauto. }
  intros Hk.
  assert (node_type k = node_type (parsed_node benv self st)
          /\ node_format k = node_format (parsed_node benv self st)) as [-> ->].
  { unfold parsed in Hk. destruct (opt_caption (options self)); simpl in Hk;
      by injection Hk as <-. }
  simpl. split.
  - simpl in Htype. unfold resolved_type in *.
    destruct (opt_type (options self)) as [t|] eqn:Hot.
    { destruct (Hct t eq_refl) as [a Ha]. by apply choice_member in Ha. }
    destruct (last_arg self type_like) as [t|] eqn:Hta.
    { apply last_filter_kind in Hta. by apply bool_decide_eq_true_1 in Hta. }
    destruct (resolved_path benv self) as [path|]; [|done].
    destruct (extension_type_map !! PosixPath.splitext_ext path) as [t|] eqn:He;
      [|done].
    simpl. by apply extension_types in He.
  - intros f. unfold resolved_format.
    destruct (opt_format (options self)) as [f'|] eqn:Hof.
    { intros [= ->]. destruct (Hcf f eq_refl) as [a Ha]. by apply choice_member in Ha. }
    intros Hfa. apply last_filter_kind in Hfa.
    unfold format_like in Hfa. apply andb_prop in Hfa as [_ Hfa].
    by apply bool_decide_eq_true_1 in Hfa.
Qed.

Lemma node_request_is_valid_witness :
  converted (options Example.by_options)
  /\ fst (run Example.benv Example.by_options Example.st0)
       = Ok [parsed Example.benv Example.by_options Example.st0]
  /\ node_type (parsed_node Example.benv Example.by_options Example.st0) ∈ types
  /\ (forall f,
        node_format (parsed_node Example.benv Example.by_options Example.st0) = Some f ->
        f ∈ formats).
Proof.
  assert (converted (options Example.by_options)) as Hconv.
  { split; intros v [= <-].
    - exists (Some " PlantUML "). vm_compute. reflexivity.
    - exists (Some "PNG"). vm_compute. reflexivity. }
  assert (fst (run Example.benv Example.by_options Example.st0)
          = Ok [parsed Example.benv Example.by_options Example.st0]) as Hrun
    by (vm_compute; reflexivity).
  split; [exact Hconv|]. split; [exact Hrun|].
  exact (node_request_is_valid Example.benv Example.by_options Example.st0
           (parsed Example.benv Example.by_options Example.st0)
           (parsed_node Example.benv Example.by_options Example.st0)
           Hconv Hrun eq_refl).
Defined.

(** X5: [type_spec] and [format_spec] let through only members of
    [types] and [formats], and a value they returned is returned
    unchanged when it is given again. *)
Theorem converters_return_members a v :
  (type_spec a = Some v -> v ∈ types /\ type_spec (Some v) = Some v)
  /\ (format_spec a = Some v -> v ∈ formats /\ format_spec (Some v) = Some v).
Proof.
  split; intros Hv; apply choice_member in Hv as Hin; (split; [done|]).
  - unfold types in Hin.
    repeat (apply elem_of_cons in Hin as [->|Hin]; [vm_compute; reflexivity|]).
    by apply elem_of_nil in Hin.
  - unfold formats in Hin.
    repeat (apply elem_of_cons in Hin as [->|Hin]; [vm_compute; reflexivity|]).
    by apply elem_of_nil in Hin.
Qed.

Lemma converters_return_members_witness :
  type_spec (Some " PlantUML ") = Some "plantuml"
  /\ "plantuml" ∈ types
  /\ type_spec (Some "plantuml") = Some "plantuml".
Proof.
  assert (type_spec (Some " PlantUML ") = Some "plantuml") as Hv
    by (vm_compute; reflexivity).
  split; [exact Hv|].
  exact (proj1 (converters_return_members (Some " PlantUML ") "plantuml") Hv).
Defined.

(** ** The render client: what a cache miss leaves behind *)

Lemma append_assoc a b c : (a +:+ b) +:+ c = a +:+ (b +:+ c).
Proof. induction a as [|d a IH]; [done|]. by rewrite !append_cons, IH. Qed.

Lemma set_files_id p text st :
  files st !! p = Some text -> set_files (fun fs => <[p := text]> fs) st = st.
Proof.
  intros Hf. destruct st. unfold set_files. simpl in *. f_equal. by apply insert_id.
Qed.

(** Streaming changes the file it writes, and nothing else. *)
Lemma write_chunks_state env p s st sofar :
  files st !! p = Some sofar ->
  snd (write_chunks env p s st) =
    set_files (fun fs => <[p := written env s sofar]> fs) st.
Proof.
  revert st sofar. induction s as [|c rest IH|]; intros st sofar Hf; simpl.
  - by rewrite set_files_id.
  - unfold write. unfold_monad. rewrite Hf. simpl.
    destruct (write_ok env sofar c); simpl; [|by rewrite set_files_id].
    rewrite (IH _ (sofar +:+ c)) by (simpl; apply lookup_insert_eq).
    unfold set_files. simpl. by rewrite insert_insert_eq.
  - by rewrite set_files_id.
Qed.

(** A body that arrives whole is in the file whole. *)
Lemma written_delivered env s sofar :
  delivery_of env s sofar = Delivered ->
  written env s sofar = sofar +:+ stream_text s.
Proof.
  revert sofar. induction s as [|c rest IH|]; intros sofar; simpl; [| |done].
  - intros _. induction sofar as [|d sofar IHs]; [done|].
    by rewrite append_cons, <- IHs.
  - destruct (write_ok env sofar c); [|done].
    intros Hd. by rewrite (IH _ Hd), append_assoc.
Qed.

(** What is in the file is the beginning of what was received. *)
Lemma written_prefix env s sofar :
  exists tail, sofar +:+ stream_text s = written env s sofar +:+ tail.
Proof.
  revert sofar. induction s as [|c rest IH|]; intros sofar; simpl;
    [by exists EmptyString| |by exists EmptyString].
  destruct (write_ok env sofar c); [|by eexists].
  destruct (IH (sofar +:+ c)) as [tail Ht]. exists tail.
  by rewrite <- Ht, append_assoc.
Qed.

Section RenderMiss.

Variable env : Env.
Variable builder : Builder.
Variables diagram_type diagram_source output_format prefix : string.

Let url := kroki_url (config builder).
Let payload := payload_of diagram_source diagram_type output_format.
Let rel := relfn builder diagram_type diagram_source output_format prefix.
Let out := outfn builder diagram_type diagram_source output_format prefix.
Let dir := PosixPath.dirname out.
Let call := render_kroki env builder diagram_type diagram_source output_format prefix.

(** The state a cache miss ends in, from the answers of the outside world. *)
Lemma render_kroki_miss_final st :
  files st !! out = None ->
  snd (call st) =
    if negb (makedirs_ok env dir) then
      set_dirs (fun ds =>
        list_to_set (List.filter (fun d => bool_decide (d ∈ parents dir))
                       (makedirs_made env dir)) ∪ ds) st
    else
      match post_result env url payload with
      | Failed | Refused => requested dir url payload st
      | Responded r =>
          if error_status (status_code r) || negb (open_wb_ok env out)
          then requested dir url payload st
          else
            set_files
              (fun fs => <[out := written env (iter_content r) EmptyString]> fs)
              (requested dir url payload st)
      end.
Proof.
  intros Hf. unfold call, render_kroki, isfile. unfold_monad.
  fold out url payload rel. fold dir. rewrite Hf. simpl.
  unfold ensuredir. destruct (makedirs_ok env dir); simpl; [|done].
  unfold requests_post. unfold_monad. simpl.
  destruct (post_result env url payload) as [|r|]; simpl; [done| |done].
  unfold raise_for_status, error_status.
  destruct ((400 <=? status_code r) && (status_code r <? 600)); simpl; [done|].
  unfold open_wb. destruct (open_wb_ok env out); simpl; [|done].
  match goal with |- context [write_chunks env out ?s ?st0] =>
    pose proof (write_chunks_state env out s st0 EmptyString) as Hst;
    destruct (write_chunks env out s st0) as [res st1] end.
  simpl in Hst. rewrite Hst by apply lookup_insert_eq.
  unfold set_files, requested. simpl. rewrite insert_insert_eq.
  by destruct res as [[]|[]].
Qed.

(** X6: after a cache miss that succeeds, the artifact holds the body of
    the service's answer: the chunks of the response, in order. *)
Theorem fresh_artifact_holds_the_body st p :
  files st !! out = None ->
  fst (call st) = Ok p ->
  exists r,
    post_result env url payload = Responded r
    /\ files (snd (call st)) !! snd p = Some (stream_text (iter_content r)).
Proof.
  intros Hmiss Hok.
  pose proof (render_kroki_miss env builder diagram_type diagram_source
                output_format prefix st Hmiss) as Hres.
  pose proof (render_kroki_miss_final st Hmiss) as Hst.
  fold call out url payload rel in Hres. fold dir in Hres.
  rewrite Hok in Hres.
  destruct (makedirs_ok env dir); simpl in Hres, Hst; [|done].
  destruct (post_result env url payload) as [|r|]; [done| |done].
  destruct (error_status (status_code r)); [done|].
  destruct (open_wb_ok env out); simpl in Hres, Hst; [|done].
  destruct (delivery_of env (iter_content r) EmptyString) eqn:Hd; [|done..].
  injection Hres as ->. exists r. split; [done|].
  rewrite Hst. simpl. rewrite lookup_insert_eq.
  by rewrite (written_delivered _ _ _ Hd).
Qed.

(** X7: a cache miss sends one POST, of the payload to the configured
    URL, once the image directory is made, whatever the answer is and
    whatever happens to the file; when the directory cannot be made,
    nothing is sent. *)
Theorem cache_miss_posts_once st :
  files st !! out = None ->
  posts (snd (call st)) =
    if makedirs_ok env dir then posts st ++ [(url, payload)] else posts st.
Proof.
  intros Hmiss. rewrite (render_kroki_miss_final st Hmiss).
  destruct (makedirs_ok env dir); simpl; [|done].
  destruct (post_result env url payload) as [|r|]; [done| |done].
  by destruct (error_status (status_code r) || negb (open_wb_ok env out)).
Qed.

(** X8: no clean-up after a failure while streaming.  When the connection
    breaks or a write fails after the file was opened, the call raises
    [KrokiError] and leaves the file with the beginning of the body; the
    next call, whatever the service would answer, takes that file for the
    artifact and returns its paths without a request. *)
Theorem partial_artifact_is_taken_for_cached st r env' :
  files st !! out = None ->
  makedirs_ok env dir = true ->
  post_result env url payload = Responded r ->
  error_status (status_code r) = false ->
  open_wb_ok env out = true ->
  delivery_of env (iter_content r) EmptyString <> Delivered ->
  (exists msg, fst (call st) = Raise (KrokiError msg))
  /\ files (snd (call st)) !! out = Some (written env (iter_content r) EmptyString)
  /\ (exists tail,
        stream_text (iter_content r)
        = written env (iter_content r) EmptyString +:+ tail)
  /\ render_kroki env' builder diagram_type diagram_source output_format prefix
       (snd (call st))
     = (Ok (rel, out), snd (call st)).
Proof.
  intros Hmiss Hdir Hr Hs Ho Hd.
  pose proof (render_kroki_miss env builder diagram_type diagram_source
                output_format prefix st Hmiss) as Hres.
  pose proof (render_kroki_miss_final st Hmiss) as Hst.
  fold call out url payload rel in Hres. fold dir in Hres.
  rewrite Hdir, Hr, Hs, Ho in Hres, Hst. simpl in Hres, Hst.
  assert (files (snd (call st)) !! out
          = Some (written env (iter_content r) EmptyString)) as Hfile.
  { rewrite Hst. simpl. apply lookup_insert_eq. }
  split; [|split; [done|split]].
  - rewrite Hres.
    destruct (delivery_of env (iter_content r) EmptyString); [done|by eexists..].
  - destruct (written_prefix env (iter_content r) EmptyString) as [tail Ht].
    by exists tail.
  - apply render_kroki_hit. eexists. exact Hfile.
Qed.

(** X9: a cache entry is never changed once it exists, and no call
    touches a file other than its own artifact: a hit leaves the whole
    state as it is, and after a miss every other file, the dependencies,
    what the reporter was given, the log and the HTML body are as before. *)
Theorem render_kroki_frame st :
  (forall q, q <> out -> files (snd (call st)) !! q = files st !! q)
  /\ (is_Some (files st !! out) -> snd (call st) = st)
  /\ dependencies (snd (call st)) = dependencies st
  /\ reports (snd (call st)) = reports st
  /\ log (snd (call st)) = log st
  /\ body (snd (call st)) = body st.
Proof.
  destruct (render_kroki_cases builder diagram_type diagram_source
              output_format prefix st) as [Hhit|Hmiss]; fold out in Hhit || fold out in Hmiss.
  - unfold call.
    rewrite (render_kroki_hit env builder diagram_type diagram_source
               output_format prefix st Hhit). simpl. by auto 7.
  - rewrite (render_kroki_miss_final st Hmiss).
    split; [|split; [intros [? ?]; congruence|]].
    + intros q Hne.
      destruct (makedirs_ok env dir); simpl; [|done].
      destruct (post_result env url payload) as [|r|]; [done| |done].
      destruct (error_status (status_code r) || negb (open_wb_ok env out));
        [done|]. simpl. by rewrite lookup_insert_ne.
    + destruct (makedirs_ok env dir); simpl; [|done].
      destruct (post_result env url payload) as [|r|]; [done| |done].
      by destruct (error_status (status_code r) || negb (open_wb_ok env out)).
Qed.

(** X10: a failed request is not remembered.  After a call in which the
    POST failed or was answered with a 4xx or 5xx status, the next call for
    the same diagram sends the request again. *)
Theorem failed_request_is_sent_again st :
  files st !! out = None ->
  makedirs_ok env dir = true ->
  (post_result env url payload = Failed
   \/ exists r, post_result env url payload = Responded r
                /\ error_status (status_code r) = true) ->
  posts (snd (call st)) = posts st ++ [(url, payload)]
  /\ posts (snd (call (snd (call st)))) = posts st ++ [(url, payload); (url, payload)].
Proof.
  intros Hmiss Hdir Herr.
  assert (snd (call st) = requested dir url payload st) as Hfirst.
  { rewrite (render_kroki_miss_final st Hmiss). rewrite Hdir. simpl.
    by destruct Herr as [->|(r & -> & ->)]. }
  assert (snd (call (requested dir url payload st))
          = requested dir url payload (requested dir url payload st)) as Hsecond.
  { rewrite (render_kroki_miss_final (requested dir url payload st) Hmiss).
    rewrite Hdir. simpl.
    by destruct Herr as [->|(r & -> & ->)]. }
  rewrite Hfirst, Hsecond. simpl. split; [done|]. by rewrite <- app_assoc.
Qed.

End RenderMiss.

Lemma fresh_artifact_holds_the_body_witness :
  files Example.st0 !! outfn Example.builder "mermaid" "A->B: hi" "svg" "kroki" = None
  /\ exists r,
       post_result (Example.service 200) (kroki_url (config Example.builder))
         (payload_of "A->B: hi" "mermaid" "svg") = Responded r
       /\ files (snd (render_kroki (Example.service 200) Example.builder
                        "mermaid" "A->B: hi" "svg" "kroki" Example.st0))
            !! snd Example.paths = Some (stream_text (iter_content r)).
Proof.
  assert (files Example.st0 !! outfn Example.builder "mermaid" "A->B: hi" "svg" "kroki"
          = None) as Hmiss by (vm_compute; reflexivity).
  assert (fst (render_kroki (Example.service 200) Example.builder
                 "mermaid" "A->B: hi" "svg" "kroki" Example.st0) = Ok Example.paths)
    as Hok by (vm_compute; reflexivity).
  split; [exact Hmiss|].
  exact (fresh_artifact_holds_the_body (Example.service 200) Example.builder
           "mermaid" "A->B: hi" "svg" "kroki" Example.st0 Example.paths Hmiss Hok).
Defined.

Lemma cache_miss_posts_once_witness :
  files Example.st0 !! outfn Example.builder "mermaid" "A->B: hi" "svg" "kroki" = None
  /\ posts (snd (render_kroki (Example.service 500) Example.builder
                   "mermaid" "A->B: hi" "svg" "kroki" Example.st0))
     = [("https://kroki.io", payload_of "A->B: hi" "mermaid" "svg")]
  /\ posts (snd (render_kroki Example.read_only Example.builder
                   "mermaid" "A->B: hi" "svg" "kroki" Example.st0))
     = [].
Proof.
  assert (files Example.st0 !! outfn Example.builder "mermaid" "A->B: hi" "svg" "kroki"
          = None) as Hmiss by (vm_compute; reflexivity).
  split; [exact Hmiss|]. split.
  - rewrite (cache_miss_posts_once (Example.service 500) Example.builder
               "mermaid" "A->B: hi" "svg" "kroki" Example.st0 Hmiss).
    vm_compute. reflexivity.
  - rewrite (cache_miss_posts_once Example.read_only Example.builder
               "mermaid" "A->B: hi" "svg" "kroki" Example.st0 Hmiss).
    vm_compute. reflexivity.
Defined.

Lemma partial_artifact_is_taken_for_cached_witness :
  delivery_of Example.breaking (Chunk "<svg" Broken) EmptyString <> Delivered
  /\ files (snd (render_kroki Example.breaking Example.builder
                   "mermaid" "A->B: hi" "svg" "kroki" Example.st0))
       !! outfn Example.builder "mermaid" "A->B: hi" "svg" "kroki"
     = Some (written Example.breaking (Chunk "<svg" Broken) EmptyString)
  /\ render_kroki (Example.service 200) Example.builder
       "mermaid" "A->B: hi" "svg" "kroki"
       (snd (render_kroki Example.breaking Example.builder
               "mermaid" "A->B: hi" "svg" "kroki" Example.st0))
     = (Ok (relfn Example.builder "mermaid" "A->B: hi" "svg" "kroki",
            outfn Example.builder "mermaid" "A->B: hi" "svg" "kroki"),
        snd (render_kroki Example.breaking Example.builder
               "mermaid" "A->B: hi" "svg" "kroki" Example.st0)).
Proof.
  assert (files Example.st0 !! outfn Example.builder "mermaid" "A->B: hi" "svg" "kroki"
          = None) as Hmiss by (vm_compute; reflexivity).
  assert (delivery_of Example.breaking (Chunk "<svg" Broken) EmptyString <> Delivered)
    as Hd by (vm_compute; discriminate).
  split; [exact Hd|].
  destruct (partial_artifact_is_taken_for_cached Example.breaking Example.builder
              "mermaid" "A->B: hi" "svg" "kroki" Example.st0
              (mkResponse 200 (Chunk "<svg" Broken)) (Example.service 200)
              Hmiss eq_refl eq_refl eq_refl eq_refl Hd)
    as (_ & Hfile & _ & Hnext).
  split; [exact Hfile | exact Hnext].
Defined.

Lemma failed_request_is_sent_again_witness :
  files Example.st0 !! outfn Example.builder "mermaid" "A->B: hi" "svg" "kroki" = None
  /\ error_status 500 = true
  /\ posts (snd (render_kroki (Example.service 500) Example.builder
                   "mermaid" "A->B: hi" "svg" "kroki"
                   (snd (render_kroki (Example.service 500) Example.builder
                           "mermaid" "A->B: hi" "svg" "kroki" Example.st0))))
     = posts Example.st0
       ++ [(kroki_url (config Example.builder), payload_of "A->B: hi" "mermaid" "svg");
           (kroki_url (config Example.builder), payload_of "A->B: hi" "mermaid" "svg")].
Proof.
  assert (files Example.st0 !! outfn Example.builder "mermaid" "A->B: hi" "svg" "kroki"
          = None) as Hmiss by (vm_compute; reflexivity).
  split; [exact Hmiss|]. split; [reflexivity|].
  apply (failed_request_is_sent_again (Example.service 500) Example.builder
           "mermaid" "A->B: hi" "svg" "kroki" Example.st0 Hmiss eq_refl).
  right. exists (mkResponse 500 (Chunk "<svg/>" Done)). split; reflexivity.
Defined.

Lemma render_kroki_frame_witness :
  is_Some (files Example.st1
             !! outfn Example.builder "mermaid" "A->B: hi" "svg" "kroki")
  /\ snd (render_kroki Example.offline Example.builder
            "mermaid" "A->B: hi" "svg" "kroki" Example.st1)
     = Example.st1.
Proof.
  assert (is_Some (files Example.st1
                     !! outfn Example.builder "mermaid" "A->B: hi" "svg" "kroki"))
    as Hhit.
  { exists "<svg/>". vm_compute. reflexivity. }
  split; [exact Hhit|].
  exact (proj1 (proj2 (render_kroki_frame Example.offline Example.builder
                         "mermaid" "A->B: hi" "svg" "kroki" Example.st1)) Hhit).
Defined.

(** ** The embedder: inline SVG, and what can leave [render_html] *)


(** [render_html] adds to the log and to the body; the disk, the network
    and the reporter see what its call of [render_kroki] does. *)
Lemma render_html_effects env builder k ty src (options : gmap string string)
    prefix cls st :
  let fmt := default (kroki_output_format (config builder)) (node_format k) in
  files (snd (render_html env builder k ty src options prefix cls st))
    = files (snd (render_kroki env builder ty src fmt prefix st))
  /\ posts (snd (render_html env builder k ty src options prefix cls st))
     = posts (snd (render_kroki env builder ty src fmt prefix st))
  /\ dirs (snd (render_html env builder k ty src options prefix cls st))
     = dirs (snd (render_kroki env builder ty src fmt prefix st))
  /\ dependencies (snd (render_html env builder k ty src options prefix cls st))
     = dependencies (snd (render_kroki env builder ty src fmt prefix st)).
Proof.
  intros fmt. unfold render_html, body_append, logger_warning, open_read.
  unfold_monad. fold fmt.
  destruct (render_kroki env builder ty src fmt prefix st) as [[[fname outfn]|e] st1];
    simpl.
  - destruct (bool_decide (fmt = "svg") && kroki_inline_svg (config builder));
      destruct (node_align k); simpl;
      try (destruct (files st1 !! outfn) as [bytes|]; simpl;
           try destruct (locale_decode env bytes)); simpl; done.
  - by destruct e.
Qed.








(** ** The alternate text *)

Lemma has_char_append c a b :
  Py.has_char c (a +:+ b) = Py.has_char c a || Py.has_char c b.
Proof.
  induction a as [|d a IH]; [done|].
  rewrite append_cons. simpl. by rewrite IH, orb_assoc.
Qed.

Lemma has_char_lstrip_bounded c n s :
  (String.length s <= n)%nat ->
  Py.has_char c s = false -> Py.has_char c (Py.lstrip s) = false.
Proof.
  revert s. induction n as [|n IH]; intros s Hlen Hs.
  - destruct s; [done | cbn [String.length] in Hlen; lia].
  - destruct s as [|d r]; [done|]. cbn [Py.lstrip].
    cbn [String.length] in Hlen. cbn [Py.has_char] in Hs.
    apply orb_false_elim in Hs as [Hd Hr].
    destruct (Py.isspace d); [apply IH; [lia|done]|].
    destruct r as [|e r1]; [by cbn [Py.has_char]; rewrite Hd|].
    cbn [String.length] in Hlen. cbn [Py.has_char] in Hr.
    apply orb_false_elim in Hr as [He Hr1].
    destruct (Py.isspace2 d e); [apply IH; [lia|done]|].
    destruct r1 as [|f r2]; [by cbn [Py.has_char]; rewrite Hd, He|].
    cbn [String.length] in Hlen. cbn [Py.has_char] in Hr1.
    apply orb_false_elim in Hr1 as [Hf Hr2].
    destruct (Py.isspace3 d e f); [apply IH; [lia|done]|].
    cbn [Py.has_char]. by rewrite Hd, He, Hf, Hr2.
Qed.

Lemma has_char_lstrip c s :
  Py.has_char c s = false -> Py.has_char c (Py.lstrip s) = false.
Proof. by apply (has_char_lstrip_bounded c (String.length s)). Qed.

Lemma has_char_rstrip c s :
  Py.has_char c s = false -> Py.has_char c (Py.rstrip s) = false.
Proof.
  induction s as [|d s IH]; [done|]. intros Hs. cbn [Py.has_char] in Hs.
  apply orb_false_elim in Hs as [Hd Hs]. specialize (IH Hs).
  cbn [Py.rstrip]. destruct (Py.lstrip (String d s)); [done|].
  cbn [Py.has_char]. by rewrite Hd, IH.
Qed.

(** [encode] leaves none of the characters it replaces, the ampersand of
    its own replacements apart. *)
Lemma html_encode_escapes c s :
  c = "<"%char \/ c = ">"%char \/ c = Py.dquote \/ c = "@"%char ->
  Py.has_char c (html_encode s) = false.
Proof.
  intros Hc. induction s as [|d s IH]; [done|].
  cbn [html_encode]. rewrite has_char_append, IH, orb_false_r.
  repeat case_bool_decide;
    try (destruct Hc as [-> | [-> | [-> | ->]]]; vm_compute; reflexivity).
  simpl. rewrite orb_false_r. apply bool_decide_eq_false_2.
  destruct Hc as [-> | [-> | [-> | ->]]]; congruence.
Qed.

(** X13: the alternate text of the image reference is escaped: it holds
    no double quote and no angle bracket, whatever the diagram source is,
    so it cannot end the attribute or the tag it stands in. *)
Theorem alternate_text_is_escaped env builder k ty src
    (options : gmap string string) prefix cls st fname outfn :
  fst (render_kroki env builder ty src
         (default (kroki_output_format (config builder)) (node_format k))
         prefix st) = Ok (fname, outfn) ->
  bool_decide (default (kroki_output_format (config builder)) (node_format k) = "svg")
    && kroki_inline_svg (config builder) = false ->
  exists alt,
    img_link fname alt ∈ body (snd (render_html env builder k ty src options prefix cls st))
    /\ Py.has_char Py.dquote alt = false
    /\ Py.has_char "<" alt = false
    /\ Py.has_char ">" alt = false.
Proof.
  intros Hok Hinline.
  destruct (render_html_image env builder k ty src options prefix cls st
              fname outfn Hok Hinline) as [_ Hbody].
  exists (Py.strip (html_encode (default src (options !! "caption")))).
  split; [rewrite Hbody; set_solver|].
  unfold Py.strip.
  repeat split; apply has_char_rstrip, has_char_lstrip, html_encode_escapes; auto.
Qed.

Lemma alternate_text_is_escaped_witness :
  exists alt,
    img_link (fst Example.paths) alt
      ∈ body (snd (render_html (Example.service 200) Example.builder
                     (parsed_node Example.benv Example.plain Example.st0)
                     "mermaid" "A->B: hi" ∅ "kroki" None Example.st0))
    /\ Py.has_char Py.dquote alt = false
    /\ Py.has_char "<" alt = false
    /\ Py.has_char ">" alt = false.
Proof.
  assert (fst (render_kroki (Example.service 200) Example.builder "mermaid" "A->B: hi"
                 (default (kroki_output_format (config Example.builder))
                    (node_format (parsed_node Example.benv Example.plain Example.st0)))
                 "kroki" Example.st0) = Ok (fst Example.paths, snd Example.paths))
    as Hok by (vm_compute; reflexivity).
  exact (alternate_text_is_escaped (Example.service 200) Example.builder
           (parsed_node Example.benv Example.plain Example.st0)
           "mermaid" "A->B: hi" ∅ "kroki" None Example.st0
           (fst Example.paths) (snd Example.paths) Hok eq_refl).
Defined.

(** ** From the directive to the request *)

Lemma visit_state env builder k st :
  snd (visit env builder (kroki_node k) st) = snd (html_visit_kroki env builder k st).
Proof.
  unfold visit. unfold_monad.
  destruct (html_visit_kroki env builder k st) as [[[]|e] st1]; [done|].
  by destruct e.
Qed.

(** The figure of a captioned directive is visited as the node in it. *)
Lemma visit_kroki_of env builder n k :
  kroki_of n = Some k -> visit env builder n = visit env builder (kroki_node k).
Proof. destruct n; simpl; intros [= <-]; done. Qed.

(** The node in what [run] returned for a well-formed directive holds the
    request of the directive. *)
Lemma parsed_kroki benv self st :
  exists k,
    kroki_of (parsed benv self st) = Some k
    /\ node_type k = node_type (parsed_node benv self st)
    /\ node_code k = node_code (parsed_node benv self st)
    /\ node_format k = node_format (parsed_node benv self st).
Proof.
  unfold parsed. destruct (opt_caption (options self)); by eexists.
Qed.

(** What processing a directive that [run] made a node of does to the
    disk and to the network is what the one call of [render_kroki] for
    that node does. *)
Lemma process_effects benv env builder self st n k :
  fst (run benv self st) = Ok [n] ->
  kroki_of n = Some k ->
  files (snd (process benv env builder self st))
    = files (snd (render_kroki env builder (node_type k) (node_code k)
                    (request_format builder k) "kroki" (snd (run benv self st))))
  /\ posts (snd (process benv env builder self st))
     = posts (snd (render_kroki env builder (node_type k) (node_code k)
                     (request_format builder k) "kroki" (snd (run benv self st)))).
Proof.
  intros Hrun Hk. unfold process. unfold_monad.
  destruct (run benv self st) as [res st1]. cbn [fst snd] in Hrun |- *.
  subst res. cbn [walkabout]. unfold_monad.
  rewrite (visit_kroki_of env builder n k Hk).
  assert (snd (let (r, st') := visit env builder (kroki_node k) st1 in
               match r with Ok _ => (Ok tt, st') | Raise e => (Raise e, st') end)
          = snd (visit env builder (kroki_node k) st1)) as ->.
  { by destruct (visit env builder (kroki_node k) st1) as [[[]|e] st2]. }
  rewrite visit_state. unfold html_visit_kroki.
  by destruct (render_html_effects env builder k (node_type k) (node_code k)
                 (node_options k) "kroki" None st1) as (-> & -> & _).
Qed.

(** X14: a directive for which [run] returned a warning costs nothing
    downstream: the writer passes over the warning, so processing returns
    normally, no request is sent, no file or directory is made, the
    module's logger is given nothing and nothing is appended to the HTML
    body.  (The warning itself went to the reporter while [run] ran.) *)
Theorem rejected_directive_renders_nothing benv env builder self st n :
  fst (run benv self st) = Ok [n] ->
  is_warning n = true ->
  process benv env builder self st = (Ok tt, snd (run benv self st))
  /\ files (snd (process benv env builder self st)) = files st
  /\ dirs (snd (process benv env builder self st)) = dirs st
  /\ posts (snd (process benv env builder self st)) = posts st
  /\ log (snd (process benv env builder self st)) = log st
  /\ body (snd (process benv env builder self st)) = body st.
Proof.
  intros Hrun Hw.
  assert (process benv env builder self st = (Ok tt, snd (run benv self st))) as ->.
  { unfold process. unfold_monad.
    destruct (run benv self st) as [res st1]. simpl in Hrun. subst res.
    by destruct n. }
  split; [done|]. cbn [snd]. apply run_keeps_files.
Qed.

Lemma rejected_directive_renders_nothing_witness :
  fst (run Example.benv Example.twice Example.st0) = Ok [warning msg_type_conflict 7]
  /\ process Example.benv (Example.service 200) Example.builder Example.twice
       Example.st0
     = (Ok tt, snd (run Example.benv Example.twice Example.st0))
  /\ posts (snd (process Example.benv (Example.service 200) Example.builder
                   Example.twice Example.st0)) = posts Example.st0.
Proof.
  assert (fst (run Example.benv Example.twice Example.st0)
          = Ok [warning msg_type_conflict 7]) as Hrun by (vm_compute; reflexivity).
  split; [exact Hrun|].
  destruct (rejected_directive_renders_nothing Example.benv (Example.service 200)
              Example.builder Example.twice Example.st0
              (warning msg_type_conflict 7) Hrun eq_refl)
    as (Hp & _ & _ & Hposts & _).
  split; [exact Hp | exact Hposts].
Defined.

(** X15: end to end, a directive of which [run] made a node, whose
    artifact is not cached and whose image directory can be made, sends
    one POST to the configured URL: the text, the type and the format of
    the node, or the configured default when the node has no format. *)
Theorem accepted_directive_sends_its_request benv env builder self st n k :
  fst (run benv self st) = Ok [n] ->
  kroki_of n = Some k ->
  files st !! artifact_of builder k = None ->
  makedirs_ok env (PosixPath.dirname (artifact_of builder k)) = true ->
  posts (snd (process benv env builder self st))
    = posts st ++ [request_of builder k]
  /\ request_of builder k
     = (kroki_url (config builder),
        [("diagram_source", node_code k);
         ("diagram_type", node_type k);
         ("output_format",
          default (kroki_output_format (config builder)) (node_format k))]).
Proof.
  intros Hrun Hk Hmiss Hdir. split; [|done].
  destruct (process_effects benv env builder self st n k Hrun Hk) as [_ ->].
  destruct (run_keeps_files benv self st) as (Hfiles & _ & Hposts & _).
  unfold artifact_of in Hmiss, Hdir. rewrite <- Hfiles in Hmiss.
  rewrite (render_kroki_miss_final env builder (node_type k) (node_code k) _ "kroki"
             _ Hmiss).
  rewrite Hdir. cbn [negb]. unfold request_of.
  destruct (post_result env _ _) as [|r|]; [by rewrite <- Hposts| |by rewrite <- Hposts].
  destruct (error_status (status_code r) || negb (open_wb_ok env _));
    by rewrite <- Hposts.
Qed.

Lemma accepted_directive_sends_its_request_witness :
  fst (run Example.benv Example.plain Example.st0)
    = Ok [parsed Example.benv Example.plain Example.st0]
  /\ posts (snd (process Example.benv (Example.service 200) Example.builder
                   Example.plain Example.st0))
     = posts Example.st0
       ++ [request_of Example.builder
             (parsed_node Example.benv Example.plain Example.st0)]
  /\ request_of Example.builder (parsed_node Example.benv Example.plain Example.st0)
     = ("https://kroki.io",
        [("diagram_source", "A->B: hi"); ("diagram_type", "mermaid");
         ("output_format", "svg")]).
Proof.
  assert (fst (run Example.benv Example.plain Example.st0)
          = Ok [parsed Example.benv Example.plain Example.st0]) as Hrun
    by (vm_compute; reflexivity).
  assert (files Example.st0
            !! artifact_of Example.builder
                 (parsed_node Example.benv Example.plain Example.st0) = None) as Hmiss
    by (vm_compute; reflexivity).
  split; [exact Hrun|]. split; [|vm_compute; reflexivity].
  exact (proj1 (accepted_directive_sends_its_request Example.benv
                  (Example.service 200) Example.builder Example.plain Example.st0
                  (parsed Example.benv Example.plain Example.st0)
                  (parsed_node Example.benv Example.plain Example.st0)
                  Hrun eq_refl Hmiss eq_refl)).
Defined.

(** ** The order of the arguments *)

Lemma classify_commute acc a b :
  kind_of a <> kind_of b ->
  classify (classify acc a) b = classify (classify acc b) a.
Proof.
  destruct acc as [[f t] o]. unfold kind_of, classify.
  destruct (Py.contains types a), (Py.contains formats a),
    (Py.contains types b), (Py.contains formats b); done.
Qed.

(** X16: positional arguments of different kinds may be given in either
    order: swapping two neighbours of which one is a type and the other a
    format or a filename (or one a format and the other a filename) changes
    neither what [run] returns nor what it does. *)
Theorem arguments_of_different_kinds_commute benv c pre a b post o l st :
  kind_of a <> kind_of b ->
  run benv (mkDirective c (pre ++ a :: b :: post) o l) st
  = run benv (mkDirective c (pre ++ b :: a :: post) o l) st.
Proof.
  intros Hkind. unfold run. cbn [arguments content options lineno].
  rewrite !fold_left_app. cbn [fold_left].
  by rewrite (classify_commute _ a b Hkind).
Qed.

Lemma arguments_of_different_kinds_commute_witness :
  kind_of "png" <> kind_of "mermaid"
  /\ run Example.benv
       (mkDirective ["A->B: hi"] ([] ++ "png" :: "mermaid" :: []) Example.no_options 7)
       Example.st0
     = run Example.benv
         (mkDirective ["A->B: hi"] ([] ++ "mermaid" :: "png" :: []) Example.no_options 7)
         Example.st0.
Proof.
  assert (kind_of "png" <> kind_of "mermaid") as Hkind by (vm_compute; discriminate).
  split; [exact Hkind|].
  exact (arguments_of_different_kinds_commute Example.benv ["A->B: hi"] []
           "png" "mermaid" [] Example.no_options 7 Example.st0 Hkind).
Defined.

(** ** The shape of the artifact's name *)

Lemma be_bytes_bytes n x : Forall (fun b => 0 <= b < 256) (Sha1.be_bytes n x).
Proof.
  induction n as [|n IH]; simpl; constructor; [|exact IH].
  change 255 with (Z.ones 8). rewrite Z.land_ones by lia.
  apply Z.mod_pos_bound. lia.
Qed.

Lemma be_bytes_length n x : length (Sha1.be_bytes n x) = n.
Proof. induction n as [|n IH]; simpl; [done|]. by rewrite IH. Qed.

Lemma digest_bytes msg :
  length (Sha1.digest msg) = 20%nat
  /\ Forall (fun b => 0 <= b < 256) (Sha1.digest msg).
Proof.
  unfold Sha1.digest.
  destruct (Sha1.blocks _ Sha1.init (Sha1.pad msg)) as [[[[h0 h1] h2] h3] h4].
  split.
  - by rewrite !length_app, !be_bytes_length.
  - repeat (apply Forall_app; split); apply be_bytes_bytes.
Qed.

Lemma code_of_byte m : 0 <= m < 256 -> Py.code (ascii_of_N (Z.to_N m)) = m.
Proof.
  intros Hm. unfold Py.code. rewrite N_ascii_embedding by lia. lia.
Qed.

Lemma hexdigit_is_hex n : 0 <= n < 16 -> is_hex (Py.hexdigit n) = true.
Proof.
  intros Hn. unfold is_hex, Py.hexdigit.
  destruct (n <? 10) eqn:Hlt; rewrite code_of_byte by lia;
    apply orb_true_iff; rewrite !andb_true_iff, !Z.leb_le; lia.
Qed.

Lemma hex2_append b acc :
  Py.hex2 b +:+ acc
  = String (Py.hexdigit (b / 16)) (String (Py.hexdigit (b mod 16)) acc).
Proof. reflexivity. Qed.

Lemma hex_of_bytes l :
  Forall (fun b => 0 <= b < 256) l ->
  let h := fold_right (fun b acc => Py.hex2 b +:+ acc) EmptyString l in
  String.length h = (2 * length l)%nat /\ all_chars is_hex h = true.
Proof.
  induction 1 as [|b l Hb Hl IH]; [done|]. destruct IH as [IHl IHh].
  cbn [fold_right]. rewrite hex2_append.
  split.
  - cbn [String.length length]. rewrite IHl. lia.
  - cbn [all_chars]. rewrite IHh.
    rewrite !hexdigit_is_hex; [done| |].
    + apply Z.mod_pos_bound. lia.
    + split; [apply Z.div_pos; lia | apply Z.div_lt_upper_bound; lia].
Qed.

(** X17: the name of an artifact is the prefix, a hyphen, forty
    lower-case hexadecimal digits, a dot and the output format: the cache
    key has a fixed length whatever the request is. *)
Theorem artifact_name_shape builder ty src fmt prefix :
  exists key,
    fname builder ty src fmt prefix = prefix +:+ "-" +:+ key +:+ "." +:+ fmt
    /\ String.length key = 40%nat
    /\ all_chars is_hex key = true.
Proof.
  exists (Sha1.hexdigest (hashkey builder ty src fmt)). split; [done|].
  destruct (digest_bytes (hashkey builder ty src fmt)) as [Hlen Hbytes].
  destruct (hex_of_bytes _ Hbytes) as [Hl Hh]. unfold Sha1.hexdigest.
  split; [by rewrite Hl, Hlen | exact Hh].
Qed.

(** ** The directory of the artifact *)

Lemma split_last_sep_name b :
  Py.has_char PosixPath.sep b = false ->
  PosixPath.split_last_sep b = (EmptyString, b).
Proof.
  induction b as [|c b IH]; [done|]. simpl.
  intros [Hc Hb]%orb_false_elim. rewrite (IH Hb). simpl.
  by rewrite Hc.
Qed.

Lemma split_last_sep_join a b :
  Py.has_char PosixPath.sep b = false ->
  PosixPath.split_last_sep (a +:+ "/" +:+ b) = (a +:+ "/", b).
Proof.
  intros Hb. induction a as [|c a IH].
  - change (EmptyString +:+ "/" +:+ b) with (String PosixPath.sep b).
    cbn [PosixPath.split_last_sep]. by rewrite (split_last_sep_name b Hb).
  - rewrite append_cons. cbn [PosixPath.split_last_sep]. rewrite IH.
    by rewrite (truthy_append_r a "/").
Qed.

Lemma plain_dir_tail c d r :
  plain_dir (String c (String d r)) = true -> plain_dir (String d r) = true.
Proof. done. Qed.

Lemma rstrip_sep_plain a :
  plain_dir a = true -> PosixPath.rstrip_sep (a +:+ "/") = a.
Proof.
  induction a as [|c a IH]; [done|]. intros Ha. rewrite append_cons.
  destruct a as [|d r].
  - unfold plain_dir in Ha. simpl in Ha. simpl.
    apply negb_true_iff in Ha. by rewrite Ha.
  - cbn [PosixPath.rstrip_sep]. by rewrite (IH (plain_dir_tail c d r Ha)).
Qed.

Lemma plain_dir_join a b :
  plain_dir a = true -> plain_dir b = true -> plain_dir (a +:+ "/" +:+ b) = true.
Proof.
  unfold plain_dir. intros [Hat Hae]%andb_prop [Hbt Hbe]%andb_prop.
  apply andb_true_intro. split.
  - by apply truthy_append_l.
  - rewrite (endswith_append _ a) by (by apply truthy_append_r).
    by rewrite (endswith_append _ "/") by done.
Qed.

Lemma hex_is_no_separator key :
  all_chars is_hex key = true -> Py.has_char PosixPath.sep key = false.
Proof.
  induction key as [|c key IH]; [done|]. simpl.
  intros [Hc Hk]%andb_prop. rewrite (IH Hk), orb_false_r.
  apply bool_decide_eq_false_2. by intros ->.
Qed.

(** X18: the directory [render_kroki] makes before it sends the request
    is the image directory of the output directory, whatever the diagram
    is: with plain directory names and no separator in the prefix or the
    format, the artifact's name has no separator of its own. *)
Theorem artifact_directory builder ty src fmt prefix :
  plain_dir (outdir builder) = true ->
  plain_dir (imagedir builder) = true ->
  relative (imagedir builder) = true ->
  Py.has_char PosixPath.sep prefix = false ->
  Py.has_char PosixPath.sep fmt = false ->
  PosixPath.dirname (outfn builder ty src fmt prefix)
  = outdir builder +:+ "/" +:+ imagedir builder.
Proof.
  intros Ho Hi Hri Hp Hf.
  assert (Py.has_char PosixPath.sep (fname builder ty src fmt prefix) = false)
    as Hname.
  { unfold fname. rewrite !has_char_append, Hp, Hf.
    rewrite (hex_is_no_separator (Sha1.hexdigest (hashkey builder ty src fmt)));
      [reflexivity|].
    destruct (digest_bytes (hashkey builder ty src fmt)) as [_ Hbytes].
    by destruct (hex_of_bytes _ Hbytes) as [_ Hh]. }
  assert (relative (fname builder ty src fmt prefix) = true) as Hrel.
  { unfold relative in *.
    destruct (fname builder ty src fmt prefix) as [|c n]; [done|].
    simpl in *. apply orb_false_elim in Hname as [-> _]. done. }
  pose proof (plain_dir_join _ _ Ho Hi) as Hd.
  unfold outfn, PosixPath.join. cbn [fold_left].
  rewrite (join2_plain _ _ Ho Hri), (join2_plain _ _ Hd Hrel).
  unfold PosixPath.dirname. rewrite (split_last_sep_join _ _ Hname). cbn [fst].
  rewrite (rstrip_sep_plain _ Hd).
  by destruct (outdir builder +:+ "/" +:+ imagedir builder).
Qed.

Lemma artifact_directory_witness :
  Py.has_char PosixPath.sep "kroki" = false
  /\ PosixPath.dirname (outfn Example.builder "mermaid" "A->B: hi" "svg" "kroki")
     = outdir Example.builder +:+ "/" +:+ imagedir Example.builder.
Proof.
  split; [reflexivity|].
  exact (artifact_directory Example.builder "mermaid" "A->B: hi" "svg" "kroki"
           eq_refl eq_refl eq_refl eq_refl eq_refl).
Defined.

(** ** Embedded, reported or cut short *)


(** ** Building a document again *)

(** The parser looks at the disk only to read the diagram's file. *)
Lemma parser_reads_the_text_only benv self st1 st2 :
  diagram_text benv self st1 = diagram_text benv self st2 ->
  first_violation benv self st1 = first_violation benv self st2
  /\ parsed_node benv self st1 = parsed_node benv self st2.
Proof.
  intros Htext. split.
  - unfold first_violation, rules. cbn [List.find violates]. by rewrite Htext.
  - unfold parsed_node. by rewrite Htext.
Qed.

(** A directive that violates no rule: [run] returns its node, which
    holds its request. *)
Lemma accepted_run benv builder self st :
  first_violation benv self st = None ->
  exists n k,
    fst (run benv self st) = Ok [n] /\ kroki_of n = Some k
    /\ node_type k = node_type (parsed_node benv self st)
    /\ node_code k = node_code (parsed_node benv self st)
    /\ request_format builder k = request_format builder (parsed_node benv self st).
Proof.
  intros Hnone. destruct (parsed_kroki benv self st) as (k & Hk & Hty & Hcode & Hfmt).
  exists (parsed benv self st), k.
  rewrite run_outcome, (accepted_is_decoded benv self st Hnone).
  unfold expected, request_format. by rewrite Hnone, Hfmt.
Qed.

(** X20: a document built again sends nothing.  When processing a
    well-formed directive has left its artifact on disk, processing the
    same directive again, whatever the service would answer now, sends no
    request (the file the directive reads, if any, not being the artifact
    itself). *)
Theorem rebuilt_directive_sends_nothing benv env env' builder self st :
  first_violation benv self st = None ->
  resolved_path benv self <> Some (artifact_of builder (parsed_node benv self st)) ->
  is_Some (files (snd (process benv env builder self st))
             !! artifact_of builder (parsed_node benv self st)) ->
  posts (snd (process benv env' builder self (snd (process benv env builder self st))))
  = posts (snd (process benv env builder self st))
  /\ files (snd (process benv env' builder self (snd (process benv env builder self st))))
     = files (snd (process benv env builder self st)).
Proof.
  intros Hnone Hpath Hleft.
  set (pn := parsed_node benv self st) in *.
  set (st' := snd (process benv env builder self st)) in *.
  assert (forall q, q <> artifact_of builder pn -> files st' !! q = files st !! q)
    as Hframe.
  { intros q Hq. unfold st'.
    destruct (accepted_run benv builder self st Hnone)
      as (n & k & Hrun & Hk & Hty & Hcode & Hfmt).
    destruct (process_effects benv env builder self st n k Hrun Hk) as [-> _].
    rewrite Hty, Hcode, Hfmt. fold pn.
    destruct (run_keeps_files benv self st) as (Hfiles & _).
    destruct (render_kroki_cases builder (node_type pn) (node_code pn)
                (request_format builder pn) "kroki" (snd (run benv self st)))
      as [Hhit|Hmiss].
    - rewrite (render_kroki_hit env builder _ _ _ _ _ Hhit). cbn [snd].
      by rewrite Hfiles.
    - destruct (render_kroki_miss_state env builder _ _ _ _ _ Hmiss) as (Hq' & _).
      rewrite (Hq' q Hq). by rewrite Hfiles. }
  assert (diagram_text benv self st' = diagram_text benv self st) as Htext.
  { unfold diagram_text. destruct (resolved_path benv self) as [p|]; [|done].
    rewrite Hframe; [done|]. intros ->. by apply Hpath. }
  destruct (parser_reads_the_text_only benv self st' st Htext) as [Hv Hpn].
  rewrite Hnone in Hv.
  destruct (accepted_run benv builder self st' Hv)
    as (n & k & Hrun & Hk & Hty & Hcode & Hfmt).
  destruct (process_effects benv env' builder self st' n k Hrun Hk) as [-> ->].
  rewrite Hty, Hcode, Hfmt, Hpn. fold pn.
  destruct (run_keeps_files benv self st') as (Hfiles & _ & Hposts & _).
  assert (is_Some (files (snd (run benv self st'))
                     !! outfn builder (node_type pn) (node_code pn)
                          (request_format builder pn) "kroki")) as Hhit.
  { rewrite Hfiles. exact Hleft. }
  rewrite (render_kroki_hit env' builder _ _ _ _ _ Hhit). cbn [snd].
  by rewrite Hfiles, Hposts.
Qed.

Lemma rebuilt_directive_sends_nothing_witness :
  first_violation Example.benv Example.plain Example.st0 = None
  /\ posts (snd (process Example.benv Example.offline Example.builder Example.plain
                   (snd (process Example.benv (Example.service 200) Example.builder
                           Example.plain Example.st0))))
     = posts (snd (process Example.benv (Example.service 200) Example.builder
                     Example.plain Example.st0)).
Proof.
  assert (first_violation Example.benv Example.plain Example.st0 = None) as Hnone
    by (vm_compute; reflexivity).
  assert (resolved_path Example.benv Example.plain
          <> Some (artifact_of Example.builder
                     (parsed_node Example.benv Example.plain Example.st0))) as Hpath
    by (vm_compute; discriminate).
  assert (is_Some (files (snd (process Example.benv (Example.service 200)
                                 Example.builder Example.plain Example.st0))
                     !! artifact_of Example.builder
                          (parsed_node Example.benv Example.plain Example.st0)))
    as Hleft.
  { exists "<svg/>". vm_compute. reflexivity. }
  split; [exact Hnone|].
  exact (proj1 (rebuilt_directive_sends_nothing Example.benv (Example.service 200)
                  Example.offline Example.builder Example.plain Example.st0
                  Hnone Hpath Hleft)).
Defined.

(** ** The two ways of naming a file *)

Lemma kind_of_filename a :
  kind_of a = FilenameArgument <-> filename_like a = true.
Proof.
  unfold kind_of, filename_like.
  destruct (Py.contains types a), (Py.contains formats a); simpl; split; done.
Qed.

Lemma filter_without (kind : string -> bool) pre a post :
  kind a = false ->
  List.filter kind (pre ++ a :: post) = List.filter kind (pre ++ post).
Proof. intros Ha. rewrite !List.filter_app. simpl. by rewrite Ha. Qed.

(** X21: a filename may be given as the [filename] option or as a
    positional argument, to the same effect: when no other argument is a
    filename, [run] returns the same nodes and notes the same dependency
    either way.  (An argument that is the name of a type or of a format is
    not a filename: such a file can only be named by the option.) *)
Theorem filename_option_is_the_argument benv c pre f post ty fmt al cap cl l st :
  kind_of f = FilenameArgument ->
  (forall a, a ∈ pre ++ post -> kind_of a <> FilenameArgument) ->
  run benv (mkDirective c (pre ++ f :: post) (mkOptions None ty fmt al cap cl) l) st
  = run benv (mkDirective c (pre ++ post) (mkOptions (Some f) ty fmt al cap cl) l) st.
Proof.
  intros Hf Hargs. apply kind_of_filename in Hf as Hfl.
  assert (forall a, a ∈ pre ++ post -> filename_like a = false) as Hnone.
  { intros a Ha. apply not_true_is_false. intros Hl.
    by apply (Hargs a Ha), kind_of_filename. }
  assert (type_like f = false /\ format_like f = false) as [Hft Hff].
  { unfold filename_like, type_like, format_like in *.
    by destruct (Py.contains types f), (Py.contains formats f). }
  unfold run. cbn [arguments content options lineno opt_filename].
  rewrite !classify_fold.
  rewrite (last_filter_app filename_like pre f post Hfl)
    by (intros b Hb; apply Hnone, elem_of_app; by right).
  rewrite (no_arg_of_kind filename_like (pre ++ post) Hnone).
  rewrite (filter_without type_like pre f post Hft).
  rewrite (filter_without format_like pre f post Hff).
  reflexivity.
Qed.

Lemma filename_option_is_the_argument_witness :
  kind_of "diagram.puml" = FilenameArgument
  /\ run Example.benv
       (mkDirective [] (["png"] ++ "diagram.puml" :: [])
          (mkOptions None None None None None None) 7) Example.st_file
     = run Example.benv
         (mkDirective [] (["png"] ++ [])
            (mkOptions (Some "diagram.puml") None None None None None) 7)
         Example.st_file.
Proof.
  assert (kind_of "diagram.puml" = FilenameArgument) as Hf by (vm_compute; reflexivity).
  split; [exact Hf|].
  apply (filename_option_is_the_argument Example.benv [] ["png"] "diagram.puml" []
           None None None None None 7 Example.st_file Hf).
  intros a [->|Ha]%elem_of_cons; [vm_compute; discriminate|].
  by apply elem_of_nil in Ha.
Defined.

(** ** The message of a render error *)

(** X22: the message of the error follows the class of the exception,
    not the place of the failure.  It is [kroki did not produce a diagram]
    only when the POST raised a [RequestException], the body broke off or
    the status was rejected.  It is [Unable to write diagram to file] with
    the artifact's path when the directory, the file or a write failed,
    and also when the POST itself raised an [OSError], with nothing wrong
    on the disk.  The two messages are never the same. *)
Theorem error_message_follows_the_exception env builder ty src fmt prefix st msg :
  fst (render_kroki env builder ty src fmt prefix st) = Raise (KrokiError msg) ->
  ((msg = msg_no_diagram
    /\ post_result env (kroki_url (config builder)) (payload_of src ty fmt) <> Refused
    /\ (request_fails env builder ty src fmt \/ status_rejected env builder ty src fmt))
   \/ (msg = msg_unable_to_write (outfn builder ty src fmt prefix)
       /\ (write_fails env builder ty src fmt prefix
           \/ post_result env (kroki_url (config builder)) (payload_of src ty fmt)
              = Refused)))
  /\ msg_no_diagram <> msg_unable_to_write (outfn builder ty src fmt prefix).
Proof.
  intros Hraise. split; [|done].
  unfold request_fails, status_rejected, write_fails.
  destruct (render_kroki_cases builder ty src fmt prefix st) as [Hhit|Hmiss].
  { by rewrite (render_kroki_hit env builder ty src fmt prefix st Hhit) in Hraise. }
  rewrite (render_kroki_miss env builder ty src fmt prefix st Hmiss) in Hraise.
  destruct (makedirs_ok env _); simpl in Hraise;
    [|injection Hraise as <-; right; by auto].
  destruct (post_result env _ _) as [|r|];
    [injection Hraise as <-; left; by auto | |injection Hraise as <-; right; by auto].
  destruct (error_status (status_code r)) eqn:Hs;
    [injection Hraise as <-; left; by auto|].
  destruct (open_wb_ok env _); simpl in Hraise;
    [|injection Hraise as <-; right; by auto].
  destruct (delivery_of env (iter_content r) EmptyString); [done| |];
    injection Hraise as <-; [left|right]; by auto.
Qed.

Lemma error_message_follows_the_exception_witness :
  fst (render_kroki Example.no_certificates Example.builder "mermaid" "A->B: hi"
         "svg" "kroki" Example.st0)
    = Raise (KrokiError
               (msg_unable_to_write
                  (outfn Example.builder "mermaid" "A->B: hi" "svg" "kroki")))
  /\ ~ write_fails Example.no_certificates Example.builder "mermaid" "A->B: hi"
        "svg" "kroki"
  /\ msg_no_diagram
     <> msg_unable_to_write (outfn Example.builder "mermaid" "A->B: hi" "svg" "kroki").
Proof.
  assert (fst (render_kroki Example.no_certificates Example.builder "mermaid"
                 "A->B: hi" "svg" "kroki" Example.st0)
          = Raise (KrokiError
                     (msg_unable_to_write
                        (outfn Example.builder "mermaid" "A->B: hi" "svg" "kroki"))))
    as Hraise by (vm_compute; reflexivity).
  split; [exact Hraise|]. split.
  - intros [Hw|[Hw|Hw]]; vm_compute in Hw; [discriminate Hw..|exact Hw].
  - exact (proj2 (error_message_follows_the_exception Example.no_certificates
                    Example.builder "mermaid" "A->B: hi" "svg" "kroki" Example.st0
                    _ Hraise)).
Defined.

(** ** The rules, when the file reads as text *)

(** X23: each of the four conflicts (a [filename] option with a
    filename-like argument, block content with a filename, a [type] option
    with a type argument, a [format] option with a format argument) makes
    [run] return one warning node and no [kroki] node, when the read of
    the named file does not end in a decoding error (which it cannot when
    the filename or the content is what is ambiguous: the file is not
    read then). *)
Theorem conflict_returns_warning benv self st :
  decode_error benv self st = false ->
  (is_Some (opt_filename (options self))
     /\ exists a, a ∈ arguments self /\ (a ∉ types) /\ (a ∉ formats))
  \/ (Py.truthy (Py.strip (Py.join nl (content self))) = true
      /\ is_Some (resolved_filename self))
  \/ (is_Some (opt_type (options self))
      /\ exists a, a ∈ arguments self /\ a ∈ types)
  \/ (is_Some (opt_format (options self))
      /\ exists a, a ∈ arguments self /\ a ∈ formats) ->
  exists r,
    fst (run benv self st) = Ok [warning (diagnostic benv self r) (lineno self)].
Proof.
  intros Hd Hconflict.
  destruct (conflict_violates_rule benv self st Hconflict) as [r0 Hr0].
  destruct (first_violation_exists benv self st r0 Hr0) as [r Hr].
  exists r. rewrite run_outcome, Hd. unfold expected. by rewrite Hr.
Qed.

Lemma conflict_returns_warning_witness :
  decode_error Example.benv Example.two_files Example.st0 = false
  /\ is_Some (opt_filename (options Example.two_files))
  /\ exists r,
       fst (run Example.benv Example.two_files Example.st0) =
         Ok [warning (diagnostic Example.benv Example.two_files r)
               (lineno Example.two_files)].
Proof.
  split; [vm_compute; reflexivity|]. split; [by eexists|].
  apply (conflict_returns_warning Example.benv Example.two_files Example.st0).
  - vm_compute. reflexivity.
  - left. split; [by eexists|]. exists "a.puml".
    split; [by apply elem_of_cons; left|]. split; not_among.
Defined.

(** X24: the rules are checked in the order the specification lists
    them: when a directive violates a rule and none of the rules listed
    before it, and the read of its file does not end in a decoding error,
    [run] returns the warning of that rule, whatever later rules the
    directive violates as well. *)
Theorem earliest_violation_diagnosed benv self st r :
  decode_error benv self st = false ->
  violates benv self st r = true ->
  (forall r', (rule_index r' < rule_index r)%nat -> violates benv self st r' = false) ->
  fst (run benv self st) = Ok [warning (diagnostic benv self r) (lineno self)].
Proof.
  intros Hd Hv Hearlier. rewrite run_outcome, Hd. unfold expected.
  by rewrite (first_violation_earliest benv self st r Hv Hearlier).
Qed.

Lemma earliest_violation_diagnosed_witness :
  violates Example.benv Example.twice Example.st0 TypeAmbiguity = true
  /\ violates Example.benv Example.twice Example.st0 FormatAmbiguity = true
  /\ fst (run Example.benv Example.twice Example.st0) =
       Ok [warning msg_type_conflict 7].
Proof.
  split; [vm_compute; reflexivity|]. split; [vm_compute; reflexivity|].
  apply (earliest_violation_diagnosed Example.benv Example.twice Example.st0
           TypeAmbiguity).
  - vm_compute; reflexivity.
  - vm_compute; reflexivity.
  - intros r' Hlt. destruct r'; cbn [rule_index] in Hlt; try lia;
      vm_compute; reflexivity.
Defined.
